(** * pymol_viridis: a shallow embedding of [viridispalettes.py]

    The plugin installs colour palettes into a registry owned by PyMOL,
    wraps the [spectrum] command so that its default palette becomes
    [turbo], and replaces three menu builders by wrappers that splice
    viridis entries into the menus the originals return.

    The embedding follows the Python source function by function.  Python
    exceptions are the [Raise] results of an error monad, module globals
    and host slots are the fields of one [state] record, and what the
    module imports (PyMOL itself, a black box, and the palette table) is
    the class [Imports]. *)

From Stdlib Require Import Ascii ZArith Lia.
From stdpp Require Import gmap strings list fin_maps.

Set Warnings "-register-all".


(** ** Python values, exceptions and results *)

(** The values that travel through the wrapped command and the menus:
    menu descriptions are nested lists such as [[1, 'auto', [...]]]. *)
Inductive value : Type :=
  | VNone : value
  | VBool (b : bool) : value
  | VInt (z : Z) : value
  | VStr (s : string) : value
  | VList (items : list value) : value.

Inductive pyerr : Type :=
  | TypeError
  | ValueError
  | IndexError
  | UnboundLocalError
  | RecursionError.

Inductive result (A : Type) : Type :=
  | Ok (a : A) : result A
  | Raise (e : pyerr) : result A.
Arguments Ok {A} a.
Arguments Raise {A} e.

#[global] Instance result_ret : MRet result := fun A a => Ok a.
#[global] Instance result_bind : MBind result := fun A B f m =>
  match m with
  | Ok a => f a
  | Raise e => Raise e
  end.

Definition is_ok {A} (r : result A) : bool :=
  match r with
  | Ok _ => true
  | Raise _ => false
  end.

(** ** Strings *)

(** The two characters the source writes with an escape. *)
Definition bslash : string := String "092"%char EmptyString.
Definition dquote : string := String "034"%char EmptyString.

(** [list(text)]: the characters of a string, each a string of length 1. *)
Fixpoint py_chars (text : string) : list string :=
  match text with
  | EmptyString => []
  | String c rest => String c EmptyString :: py_chars rest
  end.

(** [sep.join(parts)]. *)
Fixpoint py_join (sep : string) (parts : list string) : string :=
  match parts with
  | [] => EmptyString
  | [p] => p
  | p :: rest => p +:+ sep +:+ py_join sep rest
  end.

(** [s.replace(c, by)] for a pattern [c] of one character. *)
Fixpoint py_replace_char (c : ascii) (by_ : string) (s : string) : string :=
  match s with
  | EmptyString => EmptyString
  | String d rest =>
      if Ascii.eqb d c then by_ +:+ py_replace_char c by_ rest
      else String d (py_replace_char c by_ rest)
  end.

(** ** Colourised menu labels: [_colorize_text] *)

Definition _viridis8_rgb : list string :=
  ["224"; "134"; "145"; "154"; "164"; "373"; "671"; "881"].

(** The marker appended after the colourised text: [\888]. *)
Definition reset_marker : string := bslash +:+ "888".

(** The [for i, col in enumerate(palette_list)] loop.  [text_list[i]] is an
    index into a Python list and raises [IndexError] out of range. *)
Fixpoint colorize_loop (i : nat) (palette_list : list string)
    (text_list : list string) : result (list string) :=
  match palette_list with
  | [] => Ok text_list
  | col :: rest =>
      match text_list !! i with
      | None => Raise IndexError
      | Some ch =>
          if String.eqb ch "(" then
            Ok (<[i := bslash +:+ "888" +:+ ch]> text_list)
          else
            colorize_loop (S i) rest (<[i := bslash +:+ col +:+ ch]> text_list)
      end
  end.

Definition _colorize_text (text : string) (palette : list string)
    : result string :=
  let text_list := py_chars text in
  let palette_list := palette ++ ["888"] in
  let palette_list :=
    take (Nat.min (length palette_list) (length text_list)) palette_list in
  text_list' ← colorize_loop 0 palette_list text_list;
  Ok (py_join EmptyString text_list' +:+ bslash +:+ "888").

(** ** The world outside the module *)

(** What the module imports and does not define.  PyMOL's own menu
    builders are known by an identity [h] (the function object) and return
    a menu for a command handle and a selection; [menucontext_props] is
    what [menu.menucontext(self_cmd, sele)] exposes as [mc.props];
    [py_repr] is the builtin [repr] on strings; [NEW_PALETTES] is the
    table of the module [palettes_data], in the order of its [items()]. *)
Class Imports : Type := {
  self_cmd : Type;
  host_menu : nat -> self_cmd -> string -> list value;
  menucontext_props : self_cmd -> string -> list string;
  py_repr : string -> string;
  NEW_PALETTES : list (string * list string);
}.

(** A function object that may sit in the slot [cmd.spectrum].  Every
    closure [spectrum_wrapper] built by [patch_spectrum] reads the module
    global [_original_spectrum] when it is called, so all of them behave
    alike and one constructor stands for them. *)
Inductive spectrum_fn : Type :=
  | HostSpectrum (h : nat)
  | SpectrumWrapper.

(** A function object that may sit in a menu-builder slot. *)
Inductive menu_fn : Type :=
  | HostMenu (h : nat)
  | ByChainPatch
  | MolColorPatch
  | ColorAutoPatch.

(** PyMOL's [spectrum] is opaque: a call that reaches it is recorded as
    the function reached and the arguments it received. *)
Record host_call : Type := HostCall {
  callee : nat;
  call_args : list value;
  call_kwargs : gmap string value;
}.

(** The module globals, the host slots the module assigns, the palette
    registry [viewing.palette_colors_dict], and what was printed.
    [menu_has_viridis_menus = None] is a [menu] module without the
    attribute; [menu_all_colors_list] tells whether
    [from pymol.menu import all_colors_list] succeeds. *)
Record state : Type := mkState {
  _original_spectrum : option spectrum_fn;
  _original_by_chain : option menu_fn;
  _original_mol_color : option menu_fn;
  _original_color_auto : option menu_fn;
  cmd_spectrum : spectrum_fn;
  menu_by_chain : menu_fn;
  menu_mol_color : menu_fn;
  menu_color_auto : menu_fn;
  menu_has_viridis_menus : option bool;
  menu_all_colors_list : bool;
  palette_colors_dict : gmap string string;
  stdout : list string;
}.

Module Assign.
Definition original_spectrum (v : option spectrum_fn) (st : state) : state :=
  mkState v (_original_by_chain st) (_original_mol_color st)
    (_original_color_auto st) (cmd_spectrum st) (menu_by_chain st)
    (menu_mol_color st) (menu_color_auto st) (menu_has_viridis_menus st)
    (menu_all_colors_list st) (palette_colors_dict st) (stdout st).
Definition original_by_chain (v : option menu_fn) (st : state) : state :=
  mkState (_original_spectrum st) v (_original_mol_color st)
    (_original_color_auto st) (cmd_spectrum st) (menu_by_chain st)
    (menu_mol_color st) (menu_color_auto st) (menu_has_viridis_menus st)
    (menu_all_colors_list st) (palette_colors_dict st) (stdout st).
Definition original_mol_color (v : option menu_fn) (st : state) : state :=
  mkState (_original_spectrum st) (_original_by_chain st) v
    (_original_color_auto st) (cmd_spectrum st) (menu_by_chain st)
    (menu_mol_color st) (menu_color_auto st) (menu_has_viridis_menus st)
    (menu_all_colors_list st) (palette_colors_dict st) (stdout st).
Definition original_color_auto (v : option menu_fn) (st : state) : state :=
  mkState (_original_spectrum st) (_original_by_chain st)
    (_original_mol_color st) v (cmd_spectrum st) (menu_by_chain st)
    (menu_mol_color st) (menu_color_auto st) (menu_has_viridis_menus st)
    (menu_all_colors_list st) (palette_colors_dict st) (stdout st).
Definition spectrum (f : spectrum_fn) (st : state) : state :=
  mkState (_original_spectrum st) (_original_by_chain st)
    (_original_mol_color st) (_original_color_auto st) f (menu_by_chain st)
    (menu_mol_color st) (menu_color_auto st) (menu_has_viridis_menus st)
    (menu_all_colors_list st) (palette_colors_dict st) (stdout st).
Definition by_chain (f : menu_fn) (st : state) : state :=
  mkState (_original_spectrum st) (_original_by_chain st)
    (_original_mol_color st) (_original_color_auto st) (cmd_spectrum st) f
    (menu_mol_color st) (menu_color_auto st) (menu_has_viridis_menus st)
    (menu_all_colors_list st) (palette_colors_dict st) (stdout st).
Definition mol_color (f : menu_fn) (st : state) : state :=
  mkState (_original_spectrum st) (_original_by_chain st)
    (_original_mol_color st) (_original_color_auto st) (cmd_spectrum st)
    (menu_by_chain st) f (menu_color_auto st) (menu_has_viridis_menus st)
    (menu_all_colors_list st) (palette_colors_dict st) (stdout st).
Definition color_auto (f : menu_fn) (st : state) : state :=
  mkState (_original_spectrum st) (_original_by_chain st)
    (_original_mol_color st) (_original_color_auto st) (cmd_spectrum st)
    (menu_by_chain st) (menu_mol_color st) f (menu_has_viridis_menus st)
    (menu_all_colors_list st) (palette_colors_dict st) (stdout st).
Definition has_viridis_menus (b : bool) (st : state) : state :=
  mkState (_original_spectrum st) (_original_by_chain st)
    (_original_mol_color st) (_original_color_auto st) (cmd_spectrum st)
    (menu_by_chain st) (menu_mol_color st) (menu_color_auto st) (Some b)
    (menu_all_colors_list st) (palette_colors_dict st) (stdout st).
Definition registry (reg : gmap string string) (st : state) : state :=
  mkState (_original_spectrum st) (_original_by_chain st)
    (_original_mol_color st) (_original_color_auto st) (cmd_spectrum st)
    (menu_by_chain st) (menu_mol_color st) (menu_color_auto st)
    (menu_has_viridis_menus st) (menu_all_colors_list st) reg (stdout st).
End Assign.

(** [print(line)]. *)
Definition print (line : string) (st : state) : state :=
  mkState (_original_spectrum st) (_original_by_chain st)
    (_original_mol_color st) (_original_color_auto st) (cmd_spectrum st)
    (menu_by_chain st) (menu_mol_color st) (menu_color_auto st)
    (menu_has_viridis_menus st) (menu_all_colors_list st)
    (palette_colors_dict st) (stdout st ++ [line]).

(** The lines the module prints. *)
Module Msg.
Definition already_added : string :=
  "Palette menus were already added!".
Definition adding_palettes : string :=
  "Adding palettes...".
Definition default_turbo : string :=
  "Changing default palette for spectrum to `turbo`".
Definition too_old : string :=
  "PyMOL version too old for palettes menus. Requires 1.6.0 or later.".
Definition adding_menus : string :=
  "Adding viridis to menus...".
Definition done_ : string :=
  "Done!".
Definition default_rainbow : string :=
  "Changing default palette for spectrum back to `rainbow`".
Definition not_present : string :=
  "Palette menus are not present!".
Definition removing_menus : string :=
  "Removing viridis from menus...".
End Msg.

(** ** The [spectrum] wrapper and the [viridis] command *)

Definition patch_spectrum (st : state) : state :=
  let st :=
    match _original_spectrum st with
    | None => Assign.original_spectrum (Some (cmd_spectrum st)) st
    | Some _ => st
    end in
  Assign.spectrum SpectrumWrapper st.

Definition unpatch_spectrum (st : state) : state :=
  match _original_spectrum st with
  | Some orig => Assign.original_spectrum None (Assign.spectrum orig st)
  | None => st
  end.

(** Calling the function object [f] as [f( *args, **kwargs)] with [fuel]
    frames left on the Python stack.  The wrapper reads the global
    [_original_spectrum] at call time; calling [None] is a [TypeError]. *)
Fixpoint call_spectrum (fuel : nat) (st : state) (f : spectrum_fn)
    (args : list value) (kwargs : gmap string value) : result host_call :=
  match fuel with
  | O => Raise RecursionError
  | S fuel' =>
      match f with
      | HostSpectrum h => Ok (HostCall h args kwargs)
      | SpectrumWrapper =>
          let kwargs :=
            if bool_decide (length args < 2)
               && negb (bool_decide (is_Some (kwargs !! "palette")))
            then <["palette" := VStr "turbo"]> kwargs
            else kwargs in
          match _original_spectrum st with
          | None => Raise TypeError
          | Some orig => call_spectrum fuel' st orig args kwargs
          end
      end
  end.

(** [l[i] = x] on a Python list: [IndexError] out of range. *)
Definition py_setitem {A} (l : list A) (i : nat) (x : A) : result (list A) :=
  if bool_decide (i < length l) then Ok (<[i := x]> l) else Raise IndexError.

(** The command [viridis].  Python returns [None]; the result here is the
    call that reached PyMOL's [spectrum], or the exception raised. *)
Definition viridis (fuel : nat) (st : state) (args : list value)
    (kwargs : gmap string value) : result host_call :=
  if bool_decide (1 <= length args) then
    args_list ← py_setitem args 1 (VStr "viridis");
    call_spectrum fuel st (cmd_spectrum st) args_list kwargs
  else
    call_spectrum fuel st (cmd_spectrum st) args
      (<["palette" := VStr "viridis"]> kwargs).

(** ** Menu entries *)

(** A menu entry [[kind, label, payload]]. *)
Definition entry (kind : Z) (label : string) (payload : value) : value :=
  VList [VInt kind; VStr label; payload].

(** The separator [[0, '', '']]. *)
Definition separator : value := entry 0 EmptyString (VStr EmptyString).

(** [s] between double quotes, as the action strings embed their
    arguments. *)
Definition quoted (s : string) : string := dquote +:+ s +:+ dquote.

(** [_, text, _ = item]: unpacking any iterable of exactly three items. *)
Definition unpack3 (item : value) : result (value * value * value) :=
  match item with
  | VList [a; b; c] => Ok (a, b, c)
  | VList _ => Raise ValueError
  | VStr s =>
      match py_chars s with
      | [a; b; c] => Ok (VStr a, VStr b, VStr c)
      | _ => Raise ValueError
      end
  | VNone | VBool _ | VInt _ => Raise TypeError
  end.

(** [v == s] for a string literal [s]. *)
Definition py_eq_str (v : value) (s : string) : bool :=
  match v with
  | VStr t => String.eqb t s
  | _ => false
  end.

(** [l.insert(i, x)]: a negative index counts from the end, and an index
    beyond either end is clamped to it. *)
Definition py_insert {A} (i : Z) (x : A) (l : list A) : list A :=
  let n := Z.of_nat (length l) in
  let i := if (i <? 0)%Z then (i + n)%Z else i in
  let i := if (i <? 0)%Z then 0%Z else if (n <? i)%Z then n else i in
  take (Z.to_nat i) l ++ x :: drop (Z.to_nat i) l.

(** The loop of [_mol_color_patch] that looks for the entry labelled
    [auto]: [Some i] when it breaks at index [i], [None] when it runs to
    the end and leaves [auto_menu_idx] unbound. *)
Fixpoint find_auto (i : nat) (items : list value) : result (option nat) :=
  match items with
  | [] => Ok None
  | item :: rest =>
      '(_, text, _) ← unpack3 item;
      if py_eq_str text "auto" then Ok (Some i) else find_auto (S i) rest
  end.

Section Plugin.
Context {I : Imports}.

(** *** Palettes *)

Definition format_colors (values : list string) : string :=
  py_replace_char "#" "0x" (py_join " " values).

Definition add_palettes (st : state) : state :=
  let reg :=
    foldl (fun reg item => <[item.1 := format_colors item.2]> reg)
      (palette_colors_dict st) NEW_PALETTES in
  print ("`" +:+ py_join "`, `" (NEW_PALETTES.*1) +:+ "`")
    (Assign.registry reg st).

Definition _has_viridis_palettes (st : state) : bool :=
  forallb (fun k => bool_decide (is_Some (palette_colors_dict st !! k)))
    (NEW_PALETTES.*1).

(** *** Menus *)

Definition _viridis_menu (c : self_cmd) (sele : string)
    : result (list value) :=
  viridis_col ← _colorize_text "viridis" _viridis8_rgb;
  let r := [
    entry 2 "Viridis:" (VStr EmptyString);
    entry 1 (viridis_col +:+ "(elem C)")
      (VStr ("cmd.spectrum(" +:+ quoted "count" +:+ ", " +:+ quoted "viridis"
             +:+ ", selection=" +:+ quoted ("(" +:+ sele +:+ ") & elem C")
             +:+ ")"));
    entry 1 (viridis_col +:+ "(" +:+ "*/CA)")
      (VStr ("cmd.spectrum(" +:+ quoted "count" +:+ ", " +:+ quoted "viridis"
             +:+ ", selection=" +:+ quoted ("(" +:+ sele +:+ ") & */CA")
             +:+ ")"));
    entry 1 viridis_col
      (VStr ("cmd.spectrum(" +:+ quoted "count" +:+ ", " +:+ quoted "viridis"
             +:+ ", selection=" +:+ quoted sele +:+ ", byres=1)"));
    separator;
    entry 1 "b-factors"
      (VStr ("cmd.spectrum(" +:+ quoted "b" +:+ ", " +:+ quoted "viridis"
             +:+ ", selection=(" +:+ quoted sele +:+ "), quiet=0)"));
    entry 1 ("b-factors(" +:+ "*/CA)")
      (VStr ("cmd.spectrum(" +:+ quoted "b" +:+ ", " +:+ quoted "viridis"
             +:+ ", selection=" +:+ quoted ("((" +:+ sele +:+ ") & */CA)")
             +:+ ", quiet=0)"));
    separator;
    entry 1 "area (molecular)"
      (VStr ("util.color_by_area((" +:+ quoted sele +:+ "), "
             +:+ quoted "molecular" +:+ ", palette=" +:+ quoted "viridis"
             +:+ ")"));
    entry 1 "area (solvent)"
      (VStr ("util.color_by_area((" +:+ quoted sele +:+ "), "
             +:+ quoted "solvent" +:+ ", palette=" +:+ quoted "viridis"
             +:+ ")"))
  ] in
  let props := menucontext_props c sele in
  Ok (r ++ [
    separator;
    entry 1 "user properties"
      (VList (entry 2 "User Properties:" (VStr EmptyString) ::
        map (fun key =>
          entry 1 key
            (VList (entry 2 "Palette" (VStr EmptyString) ::
              map (fun palette =>
                entry 1 palette
                  (VStr ("cmd.spectrum("
                         +:+ quoted ("properties[" +:+ py_repr key +:+ "]")
                         +:+ ", " +:+ quoted palette
                         +:+ ", " +:+ quoted sele +:+ ")")))
                ["viridis"; "blue white red"; "green red"])))
          props))
  ]).

(** The wrappers call their captured original through [call], the way
    the interpreter calls a function object; [call_menu] below ties the
    knot. *)
Definition _by_chain_patch
    (call : menu_fn -> self_cmd -> string -> result (list value))
    (st : state) (c : self_cmd) (sele : string) : result (list value) :=
  by_chain_col ← _colorize_text "by chain" _viridis8_rgb;
  by_segi_col ← _colorize_text "by segi " _viridis8_rgb;
  chainbows_col ← _colorize_text "chainbows" _viridis8_rgb;
  match _original_by_chain st with
  | None => Ok []
  | Some orig =>
      base ← call orig c sele;
      Ok (base ++ [
        separator;
        separator;
        entry 1 (by_chain_col +:+ "(elem C)")
          (VStr ("util.color_chains(" +:+ quoted ("(" +:+ sele +:+ " and elem C)")
                 +:+ ", palette=" +:+ quoted "viridis" +:+ ", _self=cmd)"));
        entry 1 (by_chain_col +:+ "(" +:+ "*/CA)")
          (VStr ("util.color_chains(" +:+ quoted ("(" +:+ sele +:+ " and name CA)")
                 +:+ ", palette=" +:+ quoted "viridis" +:+ ", _self=cmd)"));
        entry 1 by_chain_col
          (VStr ("util.color_chains(" +:+ quoted ("(" +:+ sele +:+ ")")
                 +:+ ", palette=" +:+ quoted "viridis" +:+ ", _self=cmd)"));
        separator;
        entry 1 chainbows_col
          (VStr ("util.chainbow(" +:+ quoted ("(" +:+ sele +:+ ")")
                 +:+ ", palette=" +:+ quoted "viridis" +:+ ", _self=cmd)"));
        separator;
        entry 1 (by_segi_col +:+ "(elem C)")
          (VStr ("cmd.spectrum(" +:+ quoted "segi" +:+ ", " +:+ quoted "viridis"
                 +:+ ", " +:+ quoted ("(" +:+ sele +:+ ") & elem C") +:+ ")"));
        entry 1 by_segi_col
          (VStr ("cmd.spectrum(" +:+ quoted "segi" +:+ ", " +:+ quoted "viridis"
                 +:+ ", " +:+ quoted sele +:+ ")"))
      ])
  end.

Definition _color_auto_patch
    (call : menu_fn -> self_cmd -> string -> result (list value))
    (st : state) (c : self_cmd) (sele : string) : result (list value) :=
  by_obj_col ← _colorize_text "by obj" _viridis8_rgb;
  by_obj_c_col ← _colorize_text "by obj(elem C)" _viridis8_rgb;
  chainbows_col ← _colorize_text "chainbows" _viridis8_rgb;
  match _original_color_auto st with
  | None => Ok []
  | Some orig =>
      base ← call orig c sele;
      Ok (base ++ [
        separator;
        entry 1 by_obj_col
          (VStr ("util.color_objs(" +:+ quoted ("(" +:+ sele +:+ " and elem C)")
                 +:+ ", palette=" +:+ quoted "viridis" +:+ ", _self=cmd)"));
        entry 1 by_obj_c_col
          (VStr ("util.color_objs(" +:+ quoted ("(" +:+ sele +:+ ")")
                 +:+ ", palette=" +:+ quoted "viridis" +:+ ", _self=cmd)"))
      ])
  end.

(** The original is called twice: once for the loop, once for [r].  The
    arguments of [r.insert] are evaluated from the left, so an unbound
    [auto_menu_idx] is reported before [_viridis_menu] is called. *)
Definition _mol_color_patch
    (call : menu_fn -> self_cmd -> string -> result (list value))
    (st : state) (c : self_cmd) (sele : string) : result (list value) :=
  viridis_col ← _colorize_text "viridis" _viridis8_rgb;
  match _original_mol_color st with
  | None => Ok []
  | Some orig =>
      items ← call orig c sele;
      auto_menu_idx ← find_auto 0 items;
      r ← call orig c sele;
      match auto_menu_idx with
      | None => Raise UnboundLocalError
      | Some i =>
          submenu ← _viridis_menu c sele;
          Ok (py_insert (Z.of_nat i - 1)
                (entry 1 viridis_col (VList submenu)) r)
      end
  end.

(** Calling the function object [f] as [f(self_cmd, sele)] with [fuel]
    frames left on the Python stack. *)
Fixpoint call_menu (fuel : nat) (st : state) (f : menu_fn)
    (c : self_cmd) (sele : string) : result (list value) :=
  match fuel with
  | O => Raise RecursionError
  | S fuel' =>
      match f with
      | HostMenu h => Ok (host_menu h c sele)
      | ByChainPatch => _by_chain_patch (call_menu fuel' st) st c sele
      | MolColorPatch => _mol_color_patch (call_menu fuel' st) st c sele
      | ColorAutoPatch => _color_auto_patch (call_menu fuel' st) st c sele
      end
  end.

(** *** Installing and removing *)

(** [hasattr(menu, 'has_viridis_menus') and menu.has_viridis_menus]. *)
Definition menus_flag (st : state) : bool :=
  match menu_has_viridis_menus st with
  | Some b => b
  | None => false
  end.

Definition add_viridis_menus (st : state) : state :=
  if menus_flag st then print Msg.already_added st
  else
    let st :=
      if negb (_has_viridis_palettes st)
      then add_palettes (print Msg.adding_palettes st)
      else st in
    let st :=
      patch_spectrum (print Msg.default_turbo st) in
    if negb (menu_all_colors_list st) then print Msg.too_old st
    else
      let st :=
        match _original_by_chain st with
        | None => Assign.original_by_chain (Some (menu_by_chain st)) st
        | Some _ => st
        end in
      let st :=
        match _original_mol_color st with
        | None => Assign.original_mol_color (Some (menu_mol_color st)) st
        | Some _ => st
        end in
      let st :=
        match _original_color_auto st with
        | None => Assign.original_color_auto (Some (menu_color_auto st)) st
        | Some _ => st
        end in
      let st := print Msg.adding_menus st in
      let st := Assign.by_chain ByChainPatch st in
      let st := Assign.mol_color MolColorPatch st in
      let st := Assign.color_auto ColorAutoPatch st in
      let st := Assign.has_viridis_menus true st in
      print Msg.done_ st.

Definition remove_viridis_menus (st : state) : state :=
  let st :=
    unpatch_spectrum (print Msg.default_rainbow st) in
  if negb (menus_flag st) then print Msg.not_present st
  else if negb (menu_all_colors_list st) then print Msg.too_old st
  else
    let st := print Msg.removing_menus st in
    let st :=
      match _original_by_chain st with
      | Some orig =>
          Assign.original_by_chain None (Assign.by_chain orig st)
      | None => st
      end in
    let st :=
      match _original_mol_color st with
      | Some orig =>
          Assign.original_mol_color None (Assign.mol_color orig st)
      | None => st
      end in
    let st :=
      match _original_color_auto st with
      | Some orig =>
          Assign.original_color_auto None (Assign.color_auto orig st)
      | None => st
      end in
    let st := Assign.has_viridis_menus false st in
    print Msg.done_ st.

End Plugin.

(** ** What the specification says, in its own words *)

(** The registry value the specification describes: the colour stops
    joined by spaces, the leading [#] of each stop turned into [0x]. *)
Definition translate_leading_marker (token : string) : string :=
  match token with
  | String c rest => if Ascii.eqb c "#" then "0x" +:+ rest else token
  | EmptyString => token
  end.

Definition spec_registry_value (values : list string) : string :=
  py_join " " (map translate_leading_marker values).

(** A colour stop with no [#] after its first character, as in
    [#440154]. *)
Fixpoint has_marker (s : string) : bool :=
  match s with
  | EmptyString => false
  | String c rest => Ascii.eqb c "#" || has_marker rest
  end.

Definition marker_only_leads (token : string) : bool :=
  match token with
  | EmptyString => true
  | String _ rest => negb (has_marker rest)
  end.

(** The splice the specification describes for the molecule-colour menu:
    the new entry immediately before the first entry labelled [auto]. *)
Fixpoint spec_insert_before_auto (new : value) (items : list value)
    : list value :=
  match items with
  | [] => []
  | item :: rest =>
      match unpack3 item with
      | Ok (_, text, _) =>
          if py_eq_str text "auto" then new :: item :: rest
          else item :: spec_insert_before_auto new rest
      | Raise _ => item :: spec_insert_before_auto new rest
      end
  end.

(** ** Closed forms used in the statements *)

(** What the loop of [_colorize_text] does to the characters, as one pass
    over the colours and the characters together. *)
Fixpoint paint (cols chars : list string) : list string :=
  match cols, chars with
  | col :: cols', ch :: chars' =>
      if String.eqb ch "(" then (bslash +:+ "888" +:+ ch) :: chars'
      else (bslash +:+ col +:+ ch) :: paint cols' chars'
  | _, _ => chars
  end.

(** The number of characters that [paint] adds. *)
Fixpoint prefix_chars (cols chars : list string) : nat :=
  match cols, chars with
  | col :: cols', ch :: chars' =>
      if String.eqb ch "(" then 4
      else S (String.length col) + prefix_chars cols' chars'
  | _, _ => 0
  end.

Definition inserted_prefix_length (text : string) (palette : list string)
    : nat :=
  prefix_chars (palette ++ ["888"]) (py_chars text).

(** An entry that unpacks into three items, and its label. *)
Definition label_of (item : value) : option value :=
  match unpack3 item with
  | Ok (_, text, _) => Some text
  | Raise _ => None
  end.

Definition is_triple (item : value) : bool := is_ok (unpack3 item).

(** An entry that is labelled [auto], as the loop of [_mol_color_patch]
    tests it. *)
Definition labelled_auto (item : value) : bool :=
  match label_of item with
  | Some text => py_eq_str text "auto"
  | None => false
  end.

(** A host on which nothing of the plugin is installed. *)
Definition unpatched (st : state) : Prop :=
  _original_spectrum st = None /\
  _original_by_chain st = None /\
  _original_mol_color st = None /\
  _original_color_auto st = None /\
  menus_flag st = false.

(** The slots the plugin assigns. *)
Definition slots (st : state) : spectrum_fn * menu_fn * menu_fn * menu_fn :=
  (cmd_spectrum st, menu_by_chain st, menu_mol_color st, menu_color_auto st).

(** The captured originals. *)
Definition originals (st : state)
    : option spectrum_fn * option menu_fn * option menu_fn * option menu_fn :=
  (_original_spectrum st, _original_by_chain st, _original_mol_color st,
   _original_color_auto st).

Section PluginEntries.
Context {I : Imports}.

(** The entry [[1, viridis_col, _viridis_menu(self_cmd, sele)]] that
    [_mol_color_patch] inserts. *)
Definition viridis_entry (c : self_cmd) (sele : string) : result value :=
  viridis_col ← _colorize_text "viridis" _viridis8_rgb;
  submenu ← _viridis_menu c sele;
  Ok (entry 1 viridis_col (VList submenu)).

(** The loop of [add_palettes] over a part of the table. *)
Definition store_all (table : list (string * list string))
    (reg : gmap string string) : gmap string string :=
  foldl (fun reg item => <[item.1 := format_colors item.2]> reg) reg table.
End PluginEntries.

(** A capture that was there before is still there after. *)
Definition keeps {A} (before after : option A) : Prop :=
  forall orig, before = Some orig -> after = Some orig.

(** ** A concrete host, for examples *)

Module Demo.
(** Builders [1], [2], [3] stand for PyMOL's [by_chain], [mol_color] and
    [color_auto]; [4] is a molecule-colour menu without [auto]. *)
Definition menus (h : nat) (c : unit) (sele : string) : list value :=
  match h with
  | 1 => [entry 2 "Chain:" (VStr EmptyString)]
  | 2 => [entry 2 "Color:" (VStr EmptyString);
          entry 1 "spectrum" (VStr "spectrum");
          separator;
          entry 1 "auto" (VStr "auto");
          separator]
  | 3 => [entry 2 "Auto:" (VStr EmptyString)]
  | 4 => [entry 2 "Color:" (VStr EmptyString);
          entry 1 "spectrum" (VStr "spectrum")]
  | _ => []
  end.

Definition imports : Imports := {|
  self_cmd := unit;
  host_menu := menus;
  menucontext_props := fun _ _ => ["charge"];
  py_repr := fun s => "'" +:+ s +:+ "'";
  NEW_PALETTES :=
    [("viridis", ["#440154"; "#21908D"; "#FDE724"]);
     ("turbo", ["#30123B"; "#A1FC3D"; "#7A0402"])];
|}.

Definition host : state := {|
  _original_spectrum := None;
  _original_by_chain := None;
  _original_mol_color := None;
  _original_color_auto := None;
  cmd_spectrum := HostSpectrum 0;
  menu_by_chain := HostMenu 1;
  menu_mol_color := HostMenu 2;
  menu_color_auto := HostMenu 3;
  menu_has_viridis_menus := None;
  menu_all_colors_list := true;
  palette_colors_dict := ∅;
  stdout := [];
|}.

(** The same host with palettes of the user's under the names
    [viridis] and [rainbow]. *)
Definition host_with_palette : state :=
  Assign.registry
    (<["rainbow" := "0xFF0000 0x0000FF"]>
       {["viridis" := "0x000000 0xFFFFFF"]})
    host.

(** The same host whose molecule-colour menu has no [auto] entry. *)
Definition host_without_auto : state := Assign.mol_color (HostMenu 4) host.
End Demo.

(** Whether a text has an opening parenthesis. *)
Fixpoint has_paren (s : string) : bool :=
  match s with
  | EmptyString => false
  | String c rest => Ascii.eqb c "(" || has_paren rest
  end.

(** ** Sequences of calls *)

#[global] Instance spectrum_fn_eq_dec : EqDecision spectrum_fn.
Proof. solve_decision. Defined.

#[global] Instance menu_fn_eq_dec : EqDecision menu_fn.
Proof. solve_decision. Defined.

Definition is_host_spectrum (f : spectrum_fn) : bool :=
  match f with
  | HostSpectrum _ => true
  | SpectrumWrapper => false
  end.

Definition is_host_menu (f : menu_fn) : bool :=
  match f with
  | HostMenu _ => true
  | _ => false
  end.

(** A host on which nothing is installed and whose four slots hold
    PyMOL's own functions. *)
Definition pristine (st : state) : Prop :=
  unpatched st /\
  is_host_spectrum (cmd_spectrum st) = true /\
  is_host_menu (menu_by_chain st) = true /\
  is_host_menu (menu_mol_color st) = true /\
  is_host_menu (menu_color_auto st) = true.

(** The functions of the module that a user or a script calls on the
    host. *)
Inductive api_call : Type :=
  | CallAddViridisMenus
  | CallRemoveViridisMenus
  | CallPatchSpectrum
  | CallUnpatchSpectrum
  | CallAddPalettes.

Section Calls.
Context {I : Imports}.

Definition run_call (c : api_call) (st : state) : state :=
  match c with
  | CallAddViridisMenus => add_viridis_menus st
  | CallRemoveViridisMenus => remove_viridis_menus st
  | CallPatchSpectrum => patch_spectrum st
  | CallUnpatchSpectrum => unpatch_spectrum st
  | CallAddPalettes => add_palettes st
  end.

Definition run_calls (calls : list api_call) (st : state) : state :=
  foldl (fun st c => run_call c st) st calls.
End Calls.

(** The function [f0] is either in the slot, with no capture, or it is
    the captured original and the wrapper [w] is in the slot. *)
Definition held {A} `{EqDecision A} (f0 w : A) (stored : option A) (slot : A)
    : bool :=
  match stored with
  | Some f => bool_decide (f = f0) && bool_decide (slot = w)
  | None => bool_decide (slot = f0)
  end.

(** The state [st] still holds the four functions of [st0], and its
    menu captures go with its activation flag. *)
Definition anchored (st0 st : state) : Prop :=
  held (cmd_spectrum st0) SpectrumWrapper
    (_original_spectrum st) (cmd_spectrum st) = true /\
  held (menu_by_chain st0) ByChainPatch
    (_original_by_chain st) (menu_by_chain st) = true /\
  held (menu_mol_color st0) MolColorPatch
    (_original_mol_color st) (menu_mol_color st) = true /\
  held (menu_color_auto st0) ColorAutoPatch
    (_original_color_auto st) (menu_color_auto st) = true /\
  menu_all_colors_list st = menu_all_colors_list st0 /\
  (menus_flag st = true ->
   menu_all_colors_list st = true /\
   is_Some (_original_by_chain st) /\
   is_Some (_original_mol_color st) /\
   is_Some (_original_color_auto st)) /\
  (menus_flag st = false ->
   _original_by_chain st = None /\
   _original_mol_color st = None /\
   _original_color_auto st = None).

(** The lines [add_viridis_menus] prints, by the path it takes. *)
Definition add_viridis_menus_lines {I : Imports} (st : state) : list string :=
  if menus_flag st then [Msg.already_added]
  else
    (if _has_viridis_palettes st then []
     else [Msg.adding_palettes;
           "`" +:+ py_join "`, `" (NEW_PALETTES.*1) +:+ "`"])
    ++ [Msg.default_turbo]
    ++ (if menu_all_colors_list st then [Msg.adding_menus; Msg.done_]
        else [Msg.too_old]).

(** ** More concrete hosts *)

Module DemoMore.
(** Builder [5] is a molecule-colour menu that starts with [auto];
    builder [6] one with a one-item entry in front of [auto]. *)
Definition menus (h : nat) (c : unit) (sele : string) : list value :=
  match h with
  | 5 => [entry 1 "auto" (VStr "auto");
          separator;
          entry 1 "ramp" (VStr "ramp")]
  | 6 => [VList [VStr "Color:"]; entry 1 "auto" (VStr "auto")]
  | _ => Demo.menus h c sele
  end.

Definition imports : Imports := {|
  self_cmd := unit;
  host_menu := menus;
  menucontext_props := fun _ _ => ["charge"];
  py_repr := fun s => "'" +:+ s +:+ "'";
  NEW_PALETTES :=
    [("viridis", ["#440154"; "#21908D"; "#FDE724"]);
     ("turbo", ["#30123B"; "#A1FC3D"; "#7A0402"])];
|}.

(** A PyMOL older than 1.6.0: no [all_colors_list]. *)
Definition old_host : state := {|
  _original_spectrum := None;
  _original_by_chain := None;
  _original_mol_color := None;
  _original_color_auto := None;
  cmd_spectrum := HostSpectrum 0;
  menu_by_chain := HostMenu 1;
  menu_mol_color := HostMenu 2;
  menu_color_auto := HostMenu 3;
  menu_has_viridis_menus := None;
  menu_all_colors_list := false;
  palette_colors_dict := ∅;
  stdout := [];
|}.

(** A session: activation, a direct patch, a second activation, a direct
    unpatch, a third activation. *)
Definition session : list api_call :=
  [CallAddViridisMenus; CallPatchSpectrum; CallAddViridisMenus;
   CallUnpatchSpectrum; CallAddViridisMenus].
End DemoMore.

(** * Properties *)

(** ** Strings and labels *)

Lemma string_app_cons (c : ascii) (s t : string) :
  String c s +:+ t = String c (s +:+ t).
Proof. reflexivity. Qed.

Lemma string_length_app (s t : string) :
  String.length (s +:+ t) = String.length s + String.length t.
Proof.
  induction s as [|c s IH]; [done |].
  rewrite string_app_cons. simpl. by rewrite IH.
Qed.

Lemma string_app_empty_r (s : string) : s +:+ EmptyString = s.
Proof.
  induction s as [|c s IH]; [done |].
  by rewrite string_app_cons, IH.
Qed.

Lemma string_app_assoc (s t u : string) : (s +:+ t) +:+ u = s +:+ t +:+ u.
Proof.
  induction s as [|c s IH]; [done |].
  by rewrite !string_app_cons, IH.
Qed.

Lemma py_join_empty_cons (p : string) (parts : list string) :
  py_join EmptyString (p :: parts) = p +:+ py_join EmptyString parts.
Proof.
  destruct parts as [|q parts]; simpl; [by rewrite string_app_empty_r | done].
Qed.

Lemma py_join_chars (text : string) :
  py_join EmptyString (py_chars text) = text.
Proof.
  induction text as [|c text IH]; [done |].
  change (py_chars (String c text))
    with (String c EmptyString :: py_chars text).
  by rewrite py_join_empty_cons, IH.
Qed.

Lemma length_py_chars (text : string) :
  length (py_chars text) = String.length text.
Proof. induction text as [|c text IH]; simpl; [done | by rewrite IH]. Qed.

(** The loop, started at index [length done_] on [done_ ++ todo], paints
    [todo] and leaves [done_] alone; it never leaves the list. *)
Lemma colorize_loop_paint (cols done_ todo : list string) :
  length cols <= length todo ->
  colorize_loop (length done_) cols (done_ ++ todo)
  = Ok (done_ ++ paint cols todo).
Proof.
  revert done_ todo.
  induction cols as [|col cols IH]; intros done_ todo Hlen.
  - by destruct todo.
  - destruct todo as [|ch todo]; simpl in Hlen; [lia |].
    simpl. rewrite list_lookup_middle by done.
    assert (Hins : forall x : string,
      <[length done_ := x]> (done_ ++ ch :: todo) = done_ ++ x :: todo).
    { intros x. rewrite insert_app_r_alt by lia.
      by rewrite Nat.sub_diag. }
    rewrite !Hins.
    destruct (String.eqb ch "("); [done |].
    specialize (IH (done_ ++ [bslash +:+ col +:+ ch]) todo).
    rewrite length_app, Nat.add_1_r in IH. simpl in IH.
    rewrite <- !app_assoc in IH. simpl in IH.
    apply IH. lia.
Qed.

Lemma paint_take (cols chars : list string) (n : nat) :
  length chars <= n -> paint (take n cols) chars = paint cols chars.
Proof.
  revert chars n.
  induction cols as [|col cols IH]; intros chars n Hn.
  - by rewrite take_nil.
  - destruct chars as [|ch chars]; [by destruct n |].
    destruct n as [|n]; simpl in Hn; [lia |].
    simpl. destruct (String.eqb ch "("); [done |].
    rewrite IH; [done | lia].
Qed.

(** [_colorize_text] always returns, and what it returns. *)
Lemma colorize_text_closed_form (text : string) (palette : list string) :
  _colorize_text text palette
  = Ok (py_join EmptyString (paint (palette ++ ["888"]) (py_chars text))
        +:+ reset_marker).
Proof.
  unfold _colorize_text.
  set (cols := palette ++ ["888"]).
  set (chars := py_chars text).
  assert (Hpaint :
    paint (take (Nat.min (length cols) (length chars)) cols) chars
    = paint cols chars).
  { destruct (Nat.le_ge_cases (length cols) (length chars)) as [Hle|Hge].
    - rewrite Nat.min_l by done. by rewrite take_ge.
    - rewrite Nat.min_r by done. by apply paint_take. }
  pose proof (colorize_loop_paint
    (take (Nat.min (length cols) (length chars)) cols) [] chars) as Hloop.
  simpl in Hloop. rewrite Hloop.
  - simpl. by rewrite Hpaint.
  - rewrite length_take. lia.
Qed.

Lemma length_join_paint (cols chars : list string) :
  String.length (py_join EmptyString (paint cols chars))
  = String.length (py_join EmptyString chars) + prefix_chars cols chars.
Proof.
  revert chars.
  induction cols as [|col cols IH]; intros chars.
  - simpl. destruct chars; simpl; lia.
  - destruct chars as [|ch chars]; [done |].
    simpl paint. simpl prefix_chars.
    destruct (String.eqb ch "(").
    + rewrite !py_join_empty_cons, !string_length_app. simpl. lia.
    + rewrite !py_join_empty_cons, !string_length_app, IH. simpl. lia.
Qed.

(** ** The colourised text *)

(** C8, as the specification states it, fails: the three characters of
    [abc] each receive a prefix of four characters, so the result has 19
    characters and not [3 + len(resetMarker) = 7]. *)
Lemma colorize_length_counterexample :
  exists out,
    _colorize_text "abc" ["100"; "200"; "300"] = Ok out /\
    String.length out = 19 /\
    String.length out <> String.length "abc" + String.length reset_marker.
Proof. eexists. split; [reflexivity |]. split; [reflexivity |]. by compute. Qed.

(** C8, amended: [_colorize_text] returns for every text and every colour
    sequence; its result ends with the reset marker and has length
    [len(text) + len(resetMarker)] plus the length of the inserted
    prefixes (for each coloured character a backslash and its colour code,
    four characters for a parenthesis that stops the colouring).  On
    [abc] with the colours [100], [200], [300] the result is
    [\100a\200b\300c\888]. *)
Theorem colorize_text_length (text : string) (palette : list string) :
  (exists body,
     _colorize_text text palette = Ok (body +:+ reset_marker) /\
     String.length (body +:+ reset_marker)
     = String.length text + inserted_prefix_length text palette
       + String.length reset_marker) /\
  _colorize_text "abc" ["100"; "200"; "300"]
  = Ok (bslash +:+ "100a" +:+ bslash +:+ "200b" +:+ bslash +:+ "300c"
        +:+ reset_marker).
Proof.
  split; [| reflexivity].
  eexists. split; [apply colorize_text_closed_form |].
  rewrite string_length_app, length_join_paint, py_join_chars.
  reflexivity.
Qed.

(** Every non-empty text receives at least one prefix, so the length of
    the result exceeds [len(text) + len(resetMarker)] then. *)
Lemma inserted_prefix_length_pos (text : string) (palette : list string) :
  text <> EmptyString -> 0 < inserted_prefix_length text palette.
Proof.
  intros Htext. unfold inserted_prefix_length.
  destruct text as [|c text]; [done |].
  destruct palette as [|col palette]; simpl; repeat case_match; lia.
Qed.

(** ** The wrapped command *)

Section SpectrumFacts.
Context {I : Imports}.

Lemma patch_spectrum_slot (st : state) :
  cmd_spectrum (patch_spectrum st) = SpectrumWrapper.
Proof. unfold patch_spectrum. by destruct (_original_spectrum st). Qed.

(** The capture is guarded: a stored original is kept. *)
Lemma patch_spectrum_original (st : state) :
  _original_spectrum (patch_spectrum st)
  = match _original_spectrum st with
    | Some orig => Some orig
    | None => Some (cmd_spectrum st)
    end.
Proof.
  unfold patch_spectrum.
  by destruct (_original_spectrum st) eqn:Horig; simpl; rewrite ?Horig.
Qed.

Lemma add_palettes_fields (st : state) :
  originals (add_palettes st) = originals st /\
  slots (add_palettes st) = slots st /\
  menu_has_viridis_menus (add_palettes st) = menu_has_viridis_menus st /\
  menu_all_colors_list (add_palettes st) = menu_all_colors_list st.
Proof. done. Qed.

(** What [add_viridis_menus] leaves in the slots and in the captures,
    field by field. *)
Lemma add_viridis_menus_fields (st : state) :
  let installs := negb (menus_flag st) && menu_all_colors_list st in
  let capture {A} (stored : option A) (slot : A) :=
    match stored with Some orig => Some orig | None => Some slot end in
  cmd_spectrum (add_viridis_menus st)
  = (if menus_flag st then cmd_spectrum st else SpectrumWrapper) /\
  _original_spectrum (add_viridis_menus st)
  = (if menus_flag st then _original_spectrum st
     else capture (_original_spectrum st) (cmd_spectrum st)) /\
  menu_by_chain (add_viridis_menus st)
  = (if installs then ByChainPatch else menu_by_chain st) /\
  menu_mol_color (add_viridis_menus st)
  = (if installs then MolColorPatch else menu_mol_color st) /\
  menu_color_auto (add_viridis_menus st)
  = (if installs then ColorAutoPatch else menu_color_auto st) /\
  _original_by_chain (add_viridis_menus st)
  = (if installs then capture (_original_by_chain st) (menu_by_chain st)
     else _original_by_chain st) /\
  _original_mol_color (add_viridis_menus st)
  = (if installs then capture (_original_mol_color st) (menu_mol_color st)
     else _original_mol_color st) /\
  _original_color_auto (add_viridis_menus st)
  = (if installs then capture (_original_color_auto st) (menu_color_auto st)
     else _original_color_auto st) /\
  menu_has_viridis_menus (add_viridis_menus st)
  = (if installs then Some true else menu_has_viridis_menus st) /\
  menu_all_colors_list (add_viridis_menus st) = menu_all_colors_list st.
Proof.
  destruct st as [os obc omc oca cs bc mc ca fl acl reg out].
  destruct fl as [[]|], acl, os, obc, omc, oca;
    cbv beta delta [add_viridis_menus];
    match goal with
    | |- context [_has_viridis_palettes ?s] =>
        generalize (_has_viridis_palettes s)
    end;
    intros [|]; repeat split; reflexivity.
Qed.
End SpectrumFacts.

Section Lifecycle.
Context {I : Imports}.

Lemma remove_viridis_menus_fields (st : state) :
  let restores := menus_flag st && menu_all_colors_list st in
  let restore {A} (stored : option A) (slot : A) :=
    match stored with Some orig => orig | None => slot end in
  cmd_spectrum (remove_viridis_menus st)
  = restore (_original_spectrum st) (cmd_spectrum st) /\
  _original_spectrum (remove_viridis_menus st) = None /\
  menu_by_chain (remove_viridis_menus st)
  = (if restores then restore (_original_by_chain st) (menu_by_chain st)
     else menu_by_chain st) /\
  menu_mol_color (remove_viridis_menus st)
  = (if restores then restore (_original_mol_color st) (menu_mol_color st)
     else menu_mol_color st) /\
  menu_color_auto (remove_viridis_menus st)
  = (if restores then restore (_original_color_auto st) (menu_color_auto st)
     else menu_color_auto st) /\
  _original_by_chain (remove_viridis_menus st)
  = (if restores then None else _original_by_chain st) /\
  _original_mol_color (remove_viridis_menus st)
  = (if restores then None else _original_mol_color st) /\
  _original_color_auto (remove_viridis_menus st)
  = (if restores then None else _original_color_auto st) /\
  menu_has_viridis_menus (remove_viridis_menus st)
  = (if restores then Some false else menu_has_viridis_menus st).
Proof.
  destruct st as [os obc omc oca cs bc mc ca fl acl reg out].
  destruct os, fl as [[]|], acl, obc, omc, oca; repeat split; reflexivity.
Qed.

(** Activation on a host where nothing is installed, then removal:
    every field the two functions assign, except the registry and the
    output. *)
Lemma add_remove_fields (st : state) :
  unpatched st ->
  slots (remove_viridis_menus (add_viridis_menus st)) = slots st /\
  originals (remove_viridis_menus (add_viridis_menus st))
  = (None, None, None, None) /\
  menus_flag (remove_viridis_menus (add_viridis_menus st)) = false /\
  (menu_all_colors_list st = true ->
   menu_has_viridis_menus (remove_viridis_menus (add_viridis_menus st))
   = Some false).
Proof.
  intros (Hos & Hobc & Homc & Hoca & Hflag).
  pose proof (add_viridis_menus_fields st) as Hadd.
  pose proof (remove_viridis_menus_fields (add_viridis_menus st)) as Hrem.
  cbv zeta in Hadd, Hrem.
  destruct Hadd as (A1 & A2 & A3 & A4 & A5 & A6 & A7 & A8 & A9 & A10).
  destruct Hrem as (R1 & R2 & R3 & R4 & R5 & R6 & R7 & R8 & R9).
  unfold slots, originals, menus_flag in *.
  rewrite R1, R2, R3, R4, R5, R6, R7, R8, R9.
  rewrite A1, A2, A3, A4, A5, A6, A7, A8, A9, A10.
  rewrite Hos, Hobc, Homc, Hoca.
  clear A1 A2 A3 A4 A5 A6 A7 A8 A9 A10 R1 R2 R3 R4 R5 R6 R7 R8 R9.
  destruct (menu_has_viridis_menus st) as [[]|]; [done | |];
    destruct (menu_all_colors_list st); repeat split;
    first [reflexivity | done].
Qed.

(** C3: from a host where nothing is installed, [add_viridis_menus]
    followed by [remove_viridis_menus] puts back into the spectrum slot
    and into the three menu slots the very functions that were there,
    forgets the four captures, and leaves the activation flag false. *)
Theorem add_then_remove_restores (st : state) :
  unpatched st ->
  let st' := remove_viridis_menus (add_viridis_menus st) in
  cmd_spectrum st' = cmd_spectrum st /\
  menu_by_chain st' = menu_by_chain st /\
  menu_mol_color st' = menu_mol_color st /\
  menu_color_auto st' = menu_color_auto st /\
  originals st' = (None, None, None, None) /\
  menus_flag st' = false.
Proof.
  intros Hun st'.
  destruct (add_remove_fields st Hun) as (Hslots & Horig & Hflag & _).
  unfold slots in Hslots. fold st' in Hslots, Horig, Hflag.
  by inversion Hslots.
Qed.
End Lifecycle.

Section Spectrum.
Context {I : Imports}.

(** The wrapper in front of a host function [h]. *)
Lemma call_wrapper (fuel : nat) (st : state) (h : nat)
    (args : list value) (kwargs : gmap string value) :
  _original_spectrum st = Some (HostSpectrum h) ->
  call_spectrum (S (S fuel)) st SpectrumWrapper args kwargs
  = Ok (HostCall h args
          (if bool_decide (length args < 2)
              && negb (bool_decide (is_Some (kwargs !! "palette")))
           then <["palette" := VStr "turbo"]> kwargs
           else kwargs)).
Proof. intros Horig. simpl. by rewrite Horig. Qed.

(** C1: after activation on a host where nothing is installed, a call
    of [cmd.spectrum] with fewer than two positional arguments and no
    [palette] keyword reaches the captured original with the caller's
    arguments and [palette='turbo'] added to the keywords; a call that
    gives the palette, as second positional argument or as keyword,
    reaches the original with exactly the caller's arguments. *)
Theorem wrapped_spectrum_defaults_to_turbo (st : state) (h fuel : nat)
    (args : list value) (kwargs : gmap string value) :
  unpatched st ->
  cmd_spectrum st = HostSpectrum h ->
  let st' := add_viridis_menus st in
  let reply :=
    call_spectrum (S (S fuel)) st' (cmd_spectrum st') args kwargs in
  _original_spectrum st' = Some (HostSpectrum h) /\
  (length args < 2 -> kwargs !! "palette" = None ->
   reply = Ok (HostCall h args (<["palette" := VStr "turbo"]> kwargs))) /\
  (2 <= length args \/ is_Some (kwargs !! "palette") ->
   reply = Ok (HostCall h args kwargs)).
Proof.
  intros (Hos & _ & _ & _ & Hflag) Hslot st' reply.
  destruct (add_viridis_menus_fields st) as (Hcmd & Horig & _).
  fold st' in Hcmd, Horig.
  rewrite Hflag in Hcmd, Horig. rewrite Hos, Hslot in Horig.
  subst reply. rewrite Hcmd, (call_wrapper _ _ h) by done.
  split; [done |]. split.
  - intros Hlen Hkw.
    rewrite bool_decide_true by done.
    rewrite (bool_decide_false (is_Some _)); [done |].
    rewrite Hkw. by intros [? ?].
  - intros [Hlen | Hkw].
    + rewrite bool_decide_false by lia. done.
    + rewrite (bool_decide_true (is_Some _)) by done.
      by rewrite andb_false_r.
Qed.

(** C2 fails on the code: with exactly one positional argument the
    assignment [args_list[1] = 'viridis'] is out of range, and
    [viridis] raises [IndexError] before [cmd.spectrum] is called. *)
Theorem viridis_one_positional_raises (fuel : nat) (st : state)
    (a : value) (kwargs : gmap string value) :
  viridis fuel st [a] kwargs = Raise IndexError.
Proof. reflexivity. Qed.

(** Where [viridis] does reach [spectrum]: with no positional argument
    the keyword is forced, with two or more the second one is. *)
Lemma viridis_no_positional (fuel : nat) (st : state)
    (kwargs : gmap string value) :
  viridis fuel st [] kwargs
  = call_spectrum fuel st (cmd_spectrum st) []
      (<["palette" := VStr "viridis"]> kwargs).
Proof. reflexivity. Qed.

Lemma viridis_two_positional (fuel : nat) (st : state) (a b : value)
    (rest : list value) (kwargs : gmap string value) :
  viridis fuel st (a :: b :: rest) kwargs
  = call_spectrum fuel st (cmd_spectrum st)
      (a :: VStr "viridis" :: rest) kwargs.
Proof.
  unfold viridis, py_setitem. simpl length.
  rewrite !bool_decide_true by lia. reflexivity.
Qed.

(** C4: a second [add_viridis_menus] (or [patch_spectrum]) in a row
    changes none of the four captured originals; neither function
    replaces a capture that is there; and after two activations of a
    host where nothing was installed, one removal still puts the host's
    own functions back into the four slots. *)
Theorem double_activation_keeps_originals (st : state) :
  originals (add_viridis_menus (add_viridis_menus st))
  = originals (add_viridis_menus st) /\
  _original_spectrum (patch_spectrum (patch_spectrum st))
  = _original_spectrum (patch_spectrum st) /\
  keeps (_original_spectrum st) (_original_spectrum (patch_spectrum st)) /\
  keeps (_original_spectrum st)
    (_original_spectrum (add_viridis_menus st)) /\
  keeps (_original_by_chain st)
    (_original_by_chain (add_viridis_menus st)) /\
  keeps (_original_mol_color st)
    (_original_mol_color (add_viridis_menus st)) /\
  keeps (_original_color_auto st)
    (_original_color_auto (add_viridis_menus st)) /\
  (unpatched st ->
   slots (remove_viridis_menus
            (add_viridis_menus (add_viridis_menus st)))
   = slots st).
Proof.
  pose proof (add_viridis_menus_fields st) as Hone.
  pose proof (add_viridis_menus_fields (add_viridis_menus st)) as Htwo.
  pose proof (remove_viridis_menus_fields
                (add_viridis_menus (add_viridis_menus st))) as Hrem.
  cbv zeta in Hone, Htwo, Hrem.
  destruct Hone as (A1 & A2 & A3 & A4 & A5 & A6 & A7 & A8 & A9 & A10).
  destruct Htwo as (B1 & B2 & B3 & B4 & B5 & B6 & B7 & B8 & B9 & B10).
  destruct Hrem as (R1 & R2 & R3 & R4 & R5 & R6 & R7 & R8 & R9).
  unfold menus_flag in *.
  assert (Hkeeps : forall {A} (stored : option A) (other : option A)
            (b : bool),
            keeps stored
              (if b then match stored with
                         | Some orig => Some orig
                         | None => other
                         end
               else stored)).
  { intros A stored other b orig ->. by destruct b. }
  split; [| split; [| split; [| split; [| split; [| split; [| split]]]]]].
  - unfold originals. rewrite B2, B6, B7, B8.
    rewrite ?A1, ?A2, ?A3, ?A4, ?A5, ?A6, ?A7, ?A8, ?A9, ?A10.
    clear.
    destruct (menu_has_viridis_menus st) as [[]|],
      (menu_all_colors_list st), (_original_spectrum st),
      (_original_by_chain st), (_original_mol_color st),
      (_original_color_auto st); reflexivity.
  - rewrite !patch_spectrum_original.
    by destruct (_original_spectrum st).
  - intros orig Horig. by rewrite patch_spectrum_original, Horig.
  - intros orig Horig. rewrite A2, Horig. clear.
    by destruct (menu_has_viridis_menus st) as [[]|].
  - rewrite A6.
    apply (Hkeeps _ (_original_by_chain st) (Some (menu_by_chain st))).
  - rewrite A7.
    apply (Hkeeps _ (_original_mol_color st) (Some (menu_mol_color st))).
  - rewrite A8.
    apply (Hkeeps _ (_original_color_auto st)
             (Some (menu_color_auto st))).
  - intros (Hos & Hobc & Homc & Hoca & Hflag).
    unfold slots. rewrite R1, R3, R4, R5.
    rewrite ?B1, ?B2, ?B3, ?B4, ?B5, ?B6, ?B7, ?B8, ?B9, ?B10.
    rewrite ?A1, ?A2, ?A3, ?A4, ?A5, ?A6, ?A7, ?A8, ?A9, ?A10.
    rewrite ?Hos, ?Hobc, ?Homc, ?Hoca.
    unfold menus_flag in Hflag.
    clear A1 A2 A3 A4 A5 A6 A7 A8 A9 A10 B1 B2 B3 B4 B5 B6 B7 B8 B9 B10
      R1 R2 R3 R4 R5 R6 R7 R8 R9 Hkeeps.
    destruct (menu_has_viridis_menus st) as [[]|]; [done | |];
      destruct (menu_all_colors_list st); reflexivity.
Qed.
End Spectrum.

(** ** The patched menu builders *)

Lemma find_auto_found (i : nat) (pre : list value) (a : value)
    (post : list value) :
  Forall (fun e => is_triple e = true /\ labelled_auto e = false) pre ->
  labelled_auto a = true ->
  find_auto i (pre ++ a :: post) = Ok (Some (i + length pre)).
Proof.
  intros Hpre Ha. revert i.
  induction Hpre as [|e pre [Htriple Hlabel] _ IH]; intros i.
  - simpl. unfold labelled_auto, label_of in Ha.
    destruct (unpack3 a) as [[[x text] y]|err]; [| done].
    simpl. rewrite Ha. f_equal. f_equal. lia.
  - simpl. unfold is_triple, labelled_auto, label_of in Htriple, Hlabel.
    destruct (unpack3 e) as [[[x text] y]|err]; [| done].
    simpl. rewrite Hlabel, IH. f_equal. f_equal. lia.
Qed.

Lemma find_auto_absent (i : nat) (items : list value) :
  Forall (fun e => labelled_auto e = false) items ->
  (exists err, find_auto i items = Raise err) \/ find_auto i items = Ok None.
Proof.
  intros Hitems. revert i.
  induction Hitems as [|e items Hlabel _ IH]; intros i; [by right |].
  simpl. unfold labelled_auto, label_of in Hlabel.
  destruct (unpack3 e) as [[[x text] y]|err]; [| left; by eexists].
  simpl. rewrite Hlabel. apply IH.
Qed.

Lemma find_auto_absent_triples (i : nat) (items : list value) :
  Forall (fun e => labelled_auto e = false) items ->
  Forall (fun e => is_triple e = true) items ->
  find_auto i items = Ok None.
Proof.
  intros Hitems. revert i.
  induction Hitems as [|e items Hlabel _ IH]; intros i Htriples; [done |].
  inversion Htriples as [|? ? Htriple Hrest]; subst.
  simpl. unfold is_triple, labelled_auto, label_of in Htriple, Hlabel.
  destruct (unpack3 e) as [[[x text] y]|err]; [| done].
  simpl. rewrite Hlabel. by apply IH.
Qed.

Lemma py_insert_at_length {A} (pre post : list A) (x : A) :
  py_insert (Z.of_nat (length pre)) x (pre ++ post) = pre ++ x :: post.
Proof.
  unfold py_insert. cbv zeta.
  assert (Hlow : (Z.of_nat (length pre) <? 0)%Z = false)
    by (apply Z.ltb_ge; lia).
  rewrite !Hlow.
  assert (Hhigh : (Z.of_nat (length (pre ++ post)) <? Z.of_nat (length pre))%Z
                  = false)
    by (apply Z.ltb_ge; rewrite length_app; lia).
  rewrite Hhigh, ?Hlow, Nat2Z.id.
  by rewrite take_app_length, drop_app_length.
Qed.

Section Menus.
Context {I : Imports}.

Lemma viridis_menu_ok (c : self_cmd) (sele : string) :
  exists submenu, _viridis_menu c sele = Ok submenu.
Proof.
  unfold _viridis_menu. rewrite colorize_text_closed_form.
  unfold mbind, result_bind. by eexists.
Qed.

Lemma viridis_entry_ok (c : self_cmd) (sele : string) :
  exists new, viridis_entry c sele = Ok new.
Proof.
  unfold viridis_entry.
  destruct (viridis_menu_ok c sele) as [submenu Hsub].
  rewrite colorize_text_closed_form, Hsub.
  unfold mbind, result_bind. by eexists.
Qed.

(** [_mol_color_patch] once the loop has found [auto] at index [i]. *)
Lemma mol_color_patch_found (fuel : nat) (st : state) (orig : menu_fn)
    (c : self_cmd) (sele : string) (items : list value) (i : nat)
    (new : value) :
  _original_mol_color st = Some orig ->
  call_menu fuel st orig c sele = Ok items ->
  find_auto 0 items = Ok (Some i) ->
  viridis_entry c sele = Ok new ->
  call_menu (S fuel) st MolColorPatch c sele
  = Ok (py_insert (Z.of_nat i - 1) new items).
Proof.
  intros Horig Hcall Hfind Hnew.
  simpl. unfold _mol_color_patch.
  unfold viridis_entry in Hnew.
  rewrite colorize_text_closed_form in *.
  rewrite Horig. unfold mbind, result_bind in *.
  rewrite Hcall, Hfind.
  destruct (_viridis_menu c sele) as [submenu|err]; [| done].
  by inversion Hnew.
Qed.

(** C5, amended: when the first entry labelled [auto] of the original
    menu is at a position of 1 or more, the patched builder returns the
    original entries in their order with the viridis entry inserted at
    list index [position - 1], that is before the entry that precedes
    [auto]: one original entry stays between the new entry and
    [auto]. *)
Theorem mol_color_patch_inserts_before_predecessor (fuel : nat)
    (st : state) (orig : menu_fn) (c : self_cmd) (sele : string)
    (pre : list value) (b a : value) (post : list value) :
  _original_mol_color st = Some orig ->
  call_menu fuel st orig c sele = Ok (pre ++ b :: a :: post) ->
  Forall (fun e => is_triple e = true /\ labelled_auto e = false)
    (pre ++ [b]) ->
  labelled_auto a = true ->
  exists new,
    viridis_entry c sele = Ok new /\
    call_menu (S fuel) st MolColorPatch c sele
    = Ok (pre ++ new :: b :: a :: post).
Proof.
  intros Horig Hcall Hpre Ha.
  destruct (viridis_entry_ok c sele) as [new Hnew].
  exists new. split; [done |].
  pose proof (find_auto_found 0 (pre ++ [b]) a post Hpre Ha) as Hfind.
  rewrite <- app_assoc in Hfind. simpl in Hfind.
  rewrite (mol_color_patch_found fuel st orig c sele _ _ new
             Horig Hcall Hfind Hnew).
  rewrite length_app. simpl.
  replace (Z.of_nat (length pre + 1) - 1)%Z with (Z.of_nat (length pre))
    by lia.
  by rewrite py_insert_at_length.
Qed.

(** With [auto] as the first entry the index is [-1], which
    [list.insert] counts from the end. *)
Lemma mol_color_patch_auto_first (fuel : nat) (st : state)
    (orig : menu_fn) (c : self_cmd) (sele : string) (a : value)
    (post : list value) :
  _original_mol_color st = Some orig ->
  call_menu fuel st orig c sele = Ok (a :: post) ->
  labelled_auto a = true ->
  exists new,
    viridis_entry c sele = Ok new /\
    call_menu (S fuel) st MolColorPatch c sele
    = Ok (py_insert (-1) new (a :: post)).
Proof.
  intros Horig Hcall Ha.
  destruct (viridis_entry_ok c sele) as [new Hnew].
  exists new. split; [done |].
  pose proof (find_auto_found 0 [] a post (Forall_nil_2 _) Ha) as Hfind.
  simpl in Hfind.
  by rewrite (mol_color_patch_found fuel st orig c sele _ _ new
                Horig Hcall Hfind Hnew).
Qed.

(** C9: when no entry of the original menu is labelled [auto], the
    patched builder raises; when moreover every entry is a triple, the
    loop ends without binding [auto_menu_idx] and the exception is
    [UnboundLocalError]. *)
Theorem mol_color_patch_without_auto_raises (fuel : nat) (st : state)
    (orig : menu_fn) (c : self_cmd) (sele : string)
    (items : list value) :
  _original_mol_color st = Some orig ->
  call_menu fuel st orig c sele = Ok items ->
  Forall (fun e => labelled_auto e = false) items ->
  exists err,
    call_menu (S fuel) st MolColorPatch c sele = Raise err /\
    (Forall (fun e => is_triple e = true) items ->
     err = UnboundLocalError).
Proof.
  intros Horig Hcall Hitems.
  simpl. unfold _mol_color_patch.
  rewrite colorize_text_closed_form, Horig.
  unfold mbind, result_bind. rewrite Hcall.
  destruct (find_auto_absent 0 items Hitems) as [[err Herr]|Hnone].
  - rewrite Herr. exists err. split; [done |].
    intros Htriples.
    by rewrite (find_auto_absent_triples 0 items Hitems Htriples) in Herr.
  - rewrite Hnone. by exists UnboundLocalError.
Qed.

(** C10: a patched builder whose captured original is [None] returns
    the empty list, for every command handle and selection. *)
Theorem stale_wrappers_return_empty (fuel : nat) (st : state)
    (c : self_cmd) (sele : string) :
  (_original_by_chain st = None ->
   call_menu (S fuel) st ByChainPatch c sele = Ok []) /\
  (_original_mol_color st = None ->
   call_menu (S fuel) st MolColorPatch c sele = Ok []) /\
  (_original_color_auto st = None ->
   call_menu (S fuel) st ColorAutoPatch c sele = Ok []).
Proof.
  repeat split; intros Hnone; simpl;
    unfold _by_chain_patch, _mol_color_patch, _color_auto_patch;
    rewrite !colorize_text_closed_form, Hnone; reflexivity.
Qed.
End Menus.

(** ** The palette registry *)

Lemma py_replace_char_app (c : ascii) (by_ s t : string) :
  py_replace_char c by_ (s +:+ t)
  = py_replace_char c by_ s +:+ py_replace_char c by_ t.
Proof.
  induction s as [|d s IH]; [done |].
  rewrite string_app_cons. simpl.
  destruct (Ascii.eqb d c).
  - by rewrite IH, string_app_assoc.
  - by rewrite IH, string_app_cons.
Qed.

Lemma py_replace_char_absent (s : string) :
  has_marker s = false -> py_replace_char "#" "0x" s = s.
Proof.
  induction s as [|d s IH]; [done |].
  simpl. intros [Hd Hs]%orb_false_iff.
  by rewrite Hd, IH.
Qed.

Lemma py_replace_char_token (token : string) :
  marker_only_leads token = true ->
  py_replace_char "#" "0x" token = translate_leading_marker token.
Proof.
  destruct token as [|d rest]; [done |].
  simpl. intros Hrest%negb_true_iff.
  rewrite (py_replace_char_absent rest Hrest).
  by destruct (Ascii.eqb d "#").
Qed.

(** On colour stops whose only [#] is the leading one, the value the code
    stores is the value the specification describes. *)
Lemma format_colors_spec {I : Imports} (values : list string) :
  Forall (fun token => marker_only_leads token = true) values ->
  format_colors values = spec_registry_value values.
Proof.
  unfold format_colors, spec_registry_value.
  induction 1 as [|token rest Htoken Hrest IH]; [done |].
  destruct rest as [|token' rest].
  - simpl. by apply py_replace_char_token.
  - change (py_join " " (token :: token' :: rest))
      with (token +:+ " " +:+ py_join " " (token' :: rest)).
    rewrite !py_replace_char_app, IH, (py_replace_char_token token Htoken).
    reflexivity.
Qed.

Section Registry.
Context {I : Imports}.

Lemma store_all_other (table : list (string * list string))
    (reg : gmap string string) (k : string) :
  k ∉ table.*1 -> store_all table reg !! k = reg !! k.
Proof.
  revert reg.
  induction table as [|[name values] table IH]; intros reg Hk; [done |].
  simpl in *. apply not_elem_of_cons in Hk as [Hne Hk].
  unfold store_all in *. simpl. rewrite IH by done.
  by rewrite lookup_insert_ne.
Qed.

(** Under a name of the table the loop leaves a value of the table,
    whatever the registry held. *)
Lemma store_all_named (table : list (string * list string)) (k : string) :
  k ∈ table.*1 ->
  exists values,
    (k, values) ∈ table /\
    forall reg, store_all table reg !! k = Some (format_colors values).
Proof.
  induction table as [|[name values] table IH]; intros Hk.
  - by apply elem_of_nil in Hk.
  - destruct (decide (k ∈ table.*1)) as [Hin|Hnotin].
    + destruct (IH Hin) as (values' & Hmem & Hlookup).
      exists values'. split; [by right |].
      intros reg. unfold store_all in *. simpl. apply Hlookup.
    + simpl in Hk. apply elem_of_cons in Hk as [->|Hin]; [| done].
      exists values. split; [by left |].
      intros reg.
      pose proof (store_all_other table
        (<[name := format_colors values]> reg) name Hnotin) as Hother.
      unfold store_all in *. simpl. rewrite Hother.
      by rewrite lookup_insert_eq.
Qed.

Lemma store_all_nodup (table : list (string * list string))
    (reg : gmap string string) (k : string) (values : list string) :
  NoDup (table.*1) ->
  (k, values) ∈ table ->
  store_all table reg !! k = Some (format_colors values).
Proof.
  revert reg.
  induction table as [|[name values'] table IH]; intros reg Hnodup Hmem.
  - by apply elem_of_nil in Hmem.
  - simpl in Hnodup. apply NoDup_cons in Hnodup as [Hfresh Hnodup].
    apply elem_of_cons in Hmem as [Heq|Hmem].
    + inversion Heq; subst.
      pose proof (store_all_other table
        (<[name := format_colors values']> reg) name Hfresh) as Hother.
      unfold store_all in *. simpl. rewrite Hother.
      by rewrite lookup_insert_eq.
    + unfold store_all in *. simpl. by apply IH.
Qed.

Lemma store_all_twice (table : list (string * list string))
    (reg : gmap string string) :
  store_all table (store_all table reg) = store_all table reg.
Proof.
  apply map_eq. intros k.
  destruct (decide (k ∈ table.*1)) as [Hin|Hnotin].
  - destruct (store_all_named table k Hin) as (values & _ & Hlookup).
    by rewrite !Hlookup.
  - by rewrite store_all_other.
Qed.

Lemma add_palettes_registry (st : state) :
  palette_colors_dict (add_palettes st)
  = store_all NEW_PALETTES (palette_colors_dict st).
Proof. reflexivity. Qed.

(** C6, amended: [add_palettes] leaves unchanged every registry entry
    whose name is not a name of the palette table; under each name of
    the table it stores a value of the table whether or not the name
    was a key already, so an entry of that name is overwritten. *)
Theorem add_palettes_frame (st : state) (k : string) :
  (k ∉ NEW_PALETTES.*1 ->
   palette_colors_dict (add_palettes st) !! k
   = palette_colors_dict st !! k) /\
  (k ∈ NEW_PALETTES.*1 ->
   exists values,
     (k, values) ∈ NEW_PALETTES /\
     palette_colors_dict (add_palettes st) !! k
     = Some (format_colors values)).
Proof.
  rewrite add_palettes_registry. split.
  - apply store_all_other.
  - intros Hin.
    destruct (store_all_named NEW_PALETTES k Hin)
      as (values & Hmem & Hlookup).
    by exists values.
Qed.

(** C7: for every palette [P] of the table, whose colour stops carry
    [#] only as their leading marker, the registry after
    [add_palettes] maps [P] to the stops joined by spaces with each
    leading [#] turned into [0x]; a second [add_palettes] leaves the
    whole registry as the first one made it. *)
Theorem add_palettes_installs_idempotently (st : state) (P : string)
    (values : list string) :
  NoDup (NEW_PALETTES.*1) ->
  (P, values) ∈ NEW_PALETTES ->
  Forall (fun token => marker_only_leads token = true) values ->
  palette_colors_dict (add_palettes st) !! P
  = Some (spec_registry_value values) /\
  palette_colors_dict (add_palettes (add_palettes st)) !! P
  = Some (spec_registry_value values) /\
  palette_colors_dict (add_palettes (add_palettes st))
  = palette_colors_dict (add_palettes st) /\
  _has_viridis_palettes (add_palettes st) = true.
Proof.
  intros Hnodup Hmem Htokens.
  rewrite !add_palettes_registry, store_all_twice.
  rewrite (store_all_nodup _ _ P values Hnodup Hmem).
  rewrite (format_colors_spec values Htokens).
  repeat split.
  unfold _has_viridis_palettes. rewrite add_palettes_registry.
  apply forallb_forall. intros k Hk%list_elem_of_In.
  destruct (store_all_named NEW_PALETTES k Hk) as (vs & _ & Hlookup).
  rewrite Hlookup. by apply bool_decide_eq_true.
Qed.
End Registry.

(** * The statements on the concrete host *)

(** C5, as the specification states it, fails: with [auto] at index 3 the
    new entry lands at index 2, the separator that preceded [auto] stays
    between them, and the result differs from the menu with the new
    entry immediately before [auto]. *)
Lemma mol_color_patch_not_immediately_before_auto :
  let st := add_viridis_menus (I := Demo.imports) Demo.host in
  exists new res,
    viridis_entry (I := Demo.imports) tt "all" = Ok new /\
    call_menu (I := Demo.imports) 2 st (menu_mol_color st) tt "all" = Ok res /\
    res !! 2 = Some new /\
    res !! 3 = Some separator /\
    res !! 4 = Some (entry 1 "auto" (VStr "auto")) /\
    spec_insert_before_auto new (Demo.menus 2 tt "all") !! 3 = Some new /\
    res <> spec_insert_before_auto new (Demo.menus 2 tt "all").
Proof.
  eexists. eexists.
  split; [vm_compute; reflexivity |].
  split; [vm_compute; reflexivity |].
  split; [reflexivity |].
  split; [reflexivity |].
  split; [reflexivity |].
  split; [reflexivity |].
  intros Heq.
  apply (f_equal (fun l => l !! 3)) in Heq.
  vm_compute in Heq. discriminate Heq.
Qed.

(** C6, as the specification states it, fails: a registry that already
    has an entry [viridis] has it overwritten by [add_palettes]. *)
Lemma add_palettes_overwrites_existing :
  palette_colors_dict Demo.host_with_palette !! "viridis"
  = Some "0x000000 0xFFFFFF" /\
  palette_colors_dict (add_palettes (I := Demo.imports) Demo.host_with_palette)
    !! "viridis"
  = Some "0x440154 0x21908D 0xFDE724".
Proof. split; vm_compute; reflexivity. Qed.

(** The call [cmd.spectrum("count", selection="all")] and the call
    [cmd.spectrum("count", "rainbow")] after activation of the concrete
    host. *)
Lemma wrapped_spectrum_defaults_to_turbo_witness :
  unpatched Demo.host /\
  cmd_spectrum Demo.host = HostSpectrum 0 /\
  let st' := add_viridis_menus (I := Demo.imports) Demo.host in
  call_spectrum 2 st' (cmd_spectrum st') [VStr "count"]
    {["selection" := VStr "all"]}
  = Ok (HostCall 0 [VStr "count"]
          (<["palette" := VStr "turbo"]> {["selection" := VStr "all"]})) /\
  call_spectrum 2 st' (cmd_spectrum st') [VStr "count"; VStr "rainbow"] ∅
  = Ok (HostCall 0 [VStr "count"; VStr "rainbow"] ∅).
Proof.
  assert (Hun : unpatched Demo.host) by (repeat split).
  split; [exact Hun |]. split; [reflexivity |].
  intros st'. split.
  - destruct (wrapped_spectrum_defaults_to_turbo (I := Demo.imports)
                Demo.host 0 0 [VStr "count"] {["selection" := VStr "all"]}
                Hun eq_refl) as (_ & Hdefault & _).
    apply Hdefault; [simpl; lia | by apply lookup_singleton_ne].
  - destruct (wrapped_spectrum_defaults_to_turbo (I := Demo.imports)
                Demo.host 0 0 [VStr "count"; VStr "rainbow"] ∅
                Hun eq_refl) as (_ & _ & Hexplicit).
    apply Hexplicit. left. simpl. lia.
Defined.

Lemma add_then_remove_restores_witness :
  unpatched Demo.host /\
  let st' :=
    remove_viridis_menus
      (add_viridis_menus (I := Demo.imports) Demo.host) in
  cmd_spectrum st' = HostSpectrum 0 /\
  menu_by_chain st' = HostMenu 1 /\
  menu_mol_color st' = HostMenu 2 /\
  menu_color_auto st' = HostMenu 3 /\
  originals st' = (None, None, None, None) /\
  menus_flag st' = false.
Proof.
  assert (Hun : unpatched Demo.host) by (repeat split).
  split; [exact Hun |].
  exact (add_then_remove_restores (I := Demo.imports) Demo.host Hun).
Defined.

Lemma double_activation_keeps_originals_witness :
  unpatched Demo.host /\
  slots (remove_viridis_menus
           (add_viridis_menus (I := Demo.imports)
              (add_viridis_menus (I := Demo.imports) Demo.host)))
  = (HostSpectrum 0, HostMenu 1, HostMenu 2, HostMenu 3) /\
  keeps (_original_mol_color
           (add_viridis_menus (I := Demo.imports) Demo.host))
    (_original_mol_color
       (add_viridis_menus (I := Demo.imports)
          (add_viridis_menus (I := Demo.imports) Demo.host))).
Proof.
  assert (Hun : unpatched Demo.host) by (repeat split).
  split; [exact Hun |]. split.
  - destruct (double_activation_keeps_originals (I := Demo.imports) Demo.host)
      as (_ & _ & _ & _ & _ & _ & _ & Hrestore).
    exact (Hrestore Hun).
  - destruct (double_activation_keeps_originals (I := Demo.imports)
                (add_viridis_menus (I := Demo.imports) Demo.host))
      as (_ & _ & _ & _ & _ & Hkept & _).
    exact Hkept.
Defined.

Lemma mol_color_patch_inserts_before_predecessor_witness :
  let st := add_viridis_menus (I := Demo.imports) Demo.host in
  _original_mol_color st = Some (HostMenu 2) /\
  exists new,
    viridis_entry (I := Demo.imports) tt "all" = Ok new /\
    call_menu (I := Demo.imports) 2 st MolColorPatch tt "all"
    = Ok ([entry 2 "Color:" (VStr EmptyString);
           entry 1 "spectrum" (VStr "spectrum")]
          ++ new :: separator :: entry 1 "auto" (VStr "auto")
          :: [separator]).
Proof.
  intros st.
  assert (Horig : _original_mol_color st = Some (HostMenu 2))
    by (vm_compute; reflexivity).
  split; [exact Horig |].
  apply (mol_color_patch_inserts_before_predecessor (I := Demo.imports)
           1 st (HostMenu 2) tt "all"
           [entry 2 "Color:" (VStr EmptyString);
            entry 1 "spectrum" (VStr "spectrum")]
           separator (entry 1 "auto" (VStr "auto")) [separator]).
  - exact Horig.
  - reflexivity.
  - repeat constructor.
  - reflexivity.
Defined.

Lemma add_palettes_frame_witness :
  ("rainbow" ∉ (NEW_PALETTES (Imports := Demo.imports)).*1) /\
  ("viridis" ∈ (NEW_PALETTES (Imports := Demo.imports)).*1) /\
  palette_colors_dict
    (add_palettes (I := Demo.imports) Demo.host_with_palette) !! "rainbow"
  = palette_colors_dict Demo.host_with_palette !! "rainbow" /\
  exists values,
    ((("viridis", values) : string * list string)
       ∈ NEW_PALETTES (Imports := Demo.imports)) /\
    palette_colors_dict
      (add_palettes (I := Demo.imports) Demo.host_with_palette) !! "viridis"
    = Some (format_colors values).
Proof.
  assert (Hout : "rainbow" ∉ (NEW_PALETTES (Imports := Demo.imports)).*1).
  { simpl. intros Hin. repeat (apply elem_of_cons in Hin as [Heq|Hin];
      [discriminate Heq |]). by apply elem_of_nil in Hin. }
  assert (Hin : "viridis" ∈ (NEW_PALETTES (Imports := Demo.imports)).*1)
    by (simpl; left).
  split; [exact Hout |]. split; [exact Hin |]. split.
  - exact (proj1 (add_palettes_frame (I := Demo.imports)
                    Demo.host_with_palette "rainbow") Hout).
  - exact (proj2 (add_palettes_frame (I := Demo.imports)
                    Demo.host_with_palette "viridis") Hin).
Defined.

Lemma add_palettes_installs_idempotently_witness :
  let after := add_palettes (I := Demo.imports) Demo.host in
  palette_colors_dict after !! "viridis" = Some "0x440154 0x21908D 0xFDE724" /\
  palette_colors_dict (add_palettes (I := Demo.imports) after)
  = palette_colors_dict after.
Proof.
  intros after.
  destruct (add_palettes_installs_idempotently (I := Demo.imports)
              Demo.host "viridis" ["#440154"; "#21908D"; "#FDE724"])
    as (Hvalue & _ & Hsame & _).
  - simpl. repeat constructor.
    + intros Hin. apply elem_of_cons in Hin as [Heq|Hin];
        [discriminate Heq | by apply elem_of_nil in Hin].
    + intros Hin. by apply elem_of_nil in Hin.
  - simpl. left.
  - repeat constructor.
  - split; [exact Hvalue | exact Hsame].
Defined.

Lemma mol_color_patch_without_auto_raises_witness :
  let st := add_viridis_menus (I := Demo.imports) Demo.host_without_auto in
  _original_mol_color st = Some (HostMenu 4) /\
  exists err,
    call_menu (I := Demo.imports) 2 st MolColorPatch tt "all" = Raise err /\
    err = UnboundLocalError.
Proof.
  intros st.
  assert (Horig : _original_mol_color st = Some (HostMenu 4))
    by (vm_compute; reflexivity).
  split; [exact Horig |].
  destruct (mol_color_patch_without_auto_raises (I := Demo.imports)
              1 st (HostMenu 4) tt "all" (Demo.menus 4 tt "all"))
    as (err & Hraise & Hunbound).
  - exact Horig.
  - reflexivity.
  - repeat constructor.
  - exists err. split; [exact Hraise |].
    apply Hunbound. repeat constructor.
Defined.

Lemma stale_wrappers_return_empty_witness :
  originals Demo.host = (None, None, None, None) /\
  call_menu (I := Demo.imports) 1 Demo.host ByChainPatch tt "all" = Ok [] /\
  call_menu (I := Demo.imports) 1 Demo.host MolColorPatch tt "all" = Ok [] /\
  call_menu (I := Demo.imports) 1 Demo.host ColorAutoPatch tt "all" = Ok [].
Proof.
  split; [reflexivity |].
  destruct (stale_wrappers_return_empty (I := Demo.imports)
              0 Demo.host tt "all") as (Hchain & Hmol & Hauto).
  split; [exact (Hchain eq_refl) |].
  split; [exact (Hmol eq_refl) | exact (Hauto eq_refl)].
Defined.

(** * Further properties *)

(** ** The colourised text, piece by piece *)

Lemma py_chars_app (s t : string) :
  py_chars (s +:+ t) = py_chars s ++ py_chars t.
Proof.
  induction s as [|c s IH]; [done |].
  rewrite string_app_cons. simpl. by rewrite IH.
Qed.

Lemma py_join_empty_app (l1 l2 : list string) :
  py_join EmptyString (l1 ++ l2)
  = py_join EmptyString l1 +:+ py_join EmptyString l2.
Proof.
  induction l1 as [|p l1 IH]; [done |].
  rewrite <- app_comm_cons, !py_join_empty_cons, IH.
  by rewrite string_app_assoc.
Qed.

(** Characters beyond the colours are not touched. *)
Lemma paint_app_long (cols chars rest : list string) :
  length cols <= length chars ->
  paint cols (chars ++ rest) = paint cols chars ++ rest.
Proof.
  revert chars.
  induction cols as [|col cols IH]; intros chars Hlen; [by destruct chars |].
  destruct chars as [|ch chars]; simpl in Hlen; [lia |].
  simpl. destruct (String.eqb ch "("); [done |].
  rewrite IH; [done | lia].
Qed.

Lemma paren_char_eqb (c : ascii) :
  String.eqb (String c EmptyString) "(" = Ascii.eqb c "(".
Proof. simpl. by destruct (Ascii.eqb c "("). Qed.

(** The first parenthesis, met while colours are left, is painted white
    and ends the painting. *)
Lemma paint_paren (cols : list string) (pre : string) (rest : list string) :
  has_paren pre = false ->
  String.length pre < length cols ->
  paint cols (py_chars pre ++ "(" :: rest)
  = paint cols (py_chars pre) ++ (bslash +:+ "888(") :: rest.
Proof.
  revert cols.
  induction pre as [|c pre IH]; intros cols Hparen Hlen.
  - destruct cols as [|col cols]; simpl in Hlen; [lia | done].
  - destruct cols as [|col cols]; simpl in Hlen; [lia |].
    simpl in Hparen. apply orb_false_iff in Hparen as [Hc Hpre].
    change (py_chars (String c pre))
      with (String c EmptyString :: py_chars pre).
    rewrite <- app_comm_cons.
    cbn [paint]. rewrite paren_char_eqb, Hc.
    rewrite IH; [done | done | lia].
Qed.

(** X1: a parenthesis met while colours are left is prefixed with the
    white code and everything after it is returned as it is: the result
    for [pre ( post] is the coloured [pre], then [\888(], then [post]
    unchanged, then the reset marker. *)
Theorem colorize_stops_at_paren (pre post : string) (palette : list string) :
  has_paren pre = false ->
  String.length pre <= length palette ->
  exists body,
    _colorize_text pre palette = Ok (body +:+ reset_marker) /\
    _colorize_text (pre +:+ "(" +:+ post) palette
    = Ok (body +:+ bslash +:+ "888(" +:+ post +:+ reset_marker).
Proof.
  intros Hparen Hlen.
  exists (py_join EmptyString (paint (palette ++ ["888"]) (py_chars pre))).
  split; [apply colorize_text_closed_form |].
  rewrite colorize_text_closed_form, py_chars_app.
  change (py_chars ("(" +:+ post)) with ("(" :: py_chars post).
  rewrite paint_paren by (rewrite ?length_app; simpl; lia || done).
  rewrite py_join_empty_app, py_join_empty_cons, py_join_chars.
  by rewrite !string_app_assoc.
Qed.

(** X2: only the first [len(palette) + 1] characters can be coloured:
    whatever follows them is returned as it is, before the reset
    marker. *)
Theorem colorize_leaves_tail (pre post : string) (palette : list string) :
  length palette < String.length pre ->
  exists body,
    _colorize_text pre palette = Ok (body +:+ reset_marker) /\
    _colorize_text (pre +:+ post) palette
    = Ok (body +:+ post +:+ reset_marker).
Proof.
  intros Hlen.
  exists (py_join EmptyString (paint (palette ++ ["888"]) (py_chars pre))).
  split; [apply colorize_text_closed_form |].
  rewrite colorize_text_closed_form, py_chars_app.
  rewrite paint_app_long
    by (rewrite length_app, length_py_chars; simpl; lia).
  rewrite py_join_empty_app, py_join_chars.
  by rewrite !string_app_assoc.
Qed.

(** ** More on the palette registry *)

Lemma has_marker_app (s t : string) :
  has_marker (s +:+ t) = has_marker s || has_marker t.
Proof.
  induction s as [|c s IH]; [done |].
  rewrite string_app_cons. simpl. by rewrite IH, orb_assoc.
Qed.

Lemma has_marker_replaced (s : string) :
  has_marker (py_replace_char "#" "0x" s) = false.
Proof.
  induction s as [|c s IH]; [done |].
  simpl. destruct (Ascii.eqb c "#") eqn:Hc.
  - by rewrite has_marker_app, IH.
  - simpl. by rewrite Hc, IH.
Qed.

Section RegistryMore.
Context {I : Imports}.

(** X3: the value stored for a palette never contains [#]: every [#] of
    the colour stops is replaced, not only a leading one. *)
Theorem format_colors_has_no_marker (values : list string) :
  has_marker (format_colors values) = false /\
  format_colors ["#12#4"; "ab"] = "0x120x4 ab".
Proof. split; [apply has_marker_replaced | reflexivity]. Qed.

(** X4: [add_palettes] only adds names: after it the registry has exactly
    the names it had and the names of the table. *)
Theorem add_palettes_names (st : state) (k : string) :
  is_Some (palette_colors_dict (add_palettes st) !! k)
  <-> is_Some (palette_colors_dict st !! k) \/ k ∈ NEW_PALETTES.*1.
Proof.
  rewrite add_palettes_registry.
  destruct (decide (k ∈ NEW_PALETTES.*1)) as [Hin|Hout].
  - destruct (store_all_named NEW_PALETTES k Hin) as (values & _ & Hlookup).
    rewrite Hlookup. split; [by right | by eexists].
  - rewrite store_all_other by done. split; [by left |].
    by intros [Hsome|Hin].
Qed.
End RegistryMore.

(** ** More on installing and removing *)

Section LifecycleMore.
Context {I : Imports}.

(** What [add_viridis_menus] does to the registry and to the output. *)
Lemma add_viridis_menus_effects (st : state) :
  palette_colors_dict (add_viridis_menus st)
  = (if menus_flag st || _has_viridis_palettes st
     then palette_colors_dict st
     else store_all NEW_PALETTES (palette_colors_dict st)) /\
  stdout (add_viridis_menus st) = stdout st ++ add_viridis_menus_lines st.
Proof.
  destruct st as [os obc omc oca cs bc mc ca fl acl reg out].
  destruct fl as [[]|], acl, os, obc, omc, oca;
    cbv beta delta [add_viridis_menus add_viridis_menus_lines];
    match goal with
    | |- context [_has_viridis_palettes ?s] =>
        generalize (_has_viridis_palettes s)
    end;
    intros [|]; split; try reflexivity;
    cbv beta iota zeta delta
      [patch_spectrum add_palettes print menus_flag negb
       Assign.original_spectrum Assign.original_by_chain
       Assign.original_mol_color Assign.original_color_auto Assign.spectrum
       Assign.by_chain Assign.mol_color Assign.color_auto
       Assign.has_viridis_menus Assign.registry
       _original_spectrum _original_by_chain _original_mol_color
       _original_color_auto cmd_spectrum menu_by_chain menu_mol_color
       menu_color_auto menu_has_viridis_menus menu_all_colors_list
       palette_colors_dict stdout];
    rewrite <- ?app_assoc; reflexivity.
Qed.

Lemma has_viridis_palettes_registry (st st' : state) :
  palette_colors_dict st' = palette_colors_dict st ->
  _has_viridis_palettes st' = _has_viridis_palettes st.
Proof. unfold _has_viridis_palettes. by intros ->. Qed.

Lemma has_viridis_palettes_stored (st : state) :
  palette_colors_dict st
  = store_all NEW_PALETTES (palette_colors_dict st) ->
  _has_viridis_palettes st = true.
Proof.
  intros Hreg. unfold _has_viridis_palettes.
  apply forallb_forall. intros k Hk%list_elem_of_In.
  destruct (store_all_named NEW_PALETTES k Hk) as (vs & _ & Hlookup).
  rewrite Hreg, Hlookup. by apply bool_decide_eq_true.
Qed.

Lemma add_viridis_menus_flagged (st : state) :
  menus_flag st = true ->
  add_viridis_menus st = print Msg.already_added st.
Proof.
  intros Hflag. cbv beta delta [add_viridis_menus]. by rewrite Hflag.
Qed.

(** X5: the lines [add_viridis_menus] prints, in order: only the notice
    when the menus are flagged as installed; otherwise the two palette
    lines when a palette is missing, the line about the default palette,
    and either the two menu lines or the line about the PyMOL version. *)
Theorem add_viridis_menus_prints (st : state) :
  stdout (add_viridis_menus st) = stdout st ++ add_viridis_menus_lines st.
Proof. apply add_viridis_menus_effects. Qed.

(** X6: [add_viridis_menus] writes the registry only when the menus are
    not flagged and a palette of the table is missing; whenever the
    menus are not flagged, every palette of the table is in the registry
    afterwards. *)
Theorem add_viridis_menus_palettes (st : state) :
  (menus_flag st = true \/ _has_viridis_palettes st = true ->
   palette_colors_dict (add_viridis_menus st) = palette_colors_dict st) /\
  (menus_flag st = false ->
   _has_viridis_palettes (add_viridis_menus st) = true).
Proof.
  destruct (add_viridis_menus_effects st) as [Hreg _].
  split.
  - intros [Hflag|Hhas]; rewrite Hreg.
    + by rewrite Hflag.
    + by rewrite Hhas, orb_true_r.
  - intros Hflag. rewrite Hflag in Hreg. simpl in Hreg.
    destruct (_has_viridis_palettes st) eqn:Hhas.
    + by rewrite (has_viridis_palettes_registry st _ Hreg).
    + apply has_viridis_palettes_stored.
      by rewrite Hreg, store_all_twice.
Qed.

(** X7: on a PyMOL with [all_colors_list], a second [add_viridis_menus]
    in a row does nothing but print that the menus were already
    added. *)
Theorem add_viridis_menus_twice (st : state) :
  menu_all_colors_list st = true ->
  add_viridis_menus (add_viridis_menus st)
  = print Msg.already_added (add_viridis_menus st).
Proof.
  intros Hacl. apply add_viridis_menus_flagged.
  destruct (add_viridis_menus_fields st) as (_ & _ & _ & _ & _ & _ & _ & _
    & Hflag & _).
  cbv zeta in Hflag. unfold menus_flag at 1. rewrite Hflag, Hacl.
  unfold menus_flag. by destruct (menu_has_viridis_menus st) as [[]|].
Qed.

(** X8: on a PyMOL without [all_colors_list], [add_viridis_menus] still
    wraps [spectrum] and captures its original, and leaves the three menu
    slots, their captures and the activation flag as they were. *)
Theorem add_viridis_menus_old_pymol (st : state) :
  menu_all_colors_list st = false ->
  menus_flag st = false ->
  cmd_spectrum (add_viridis_menus st) = SpectrumWrapper /\
  is_Some (_original_spectrum (add_viridis_menus st)) /\
  menu_by_chain (add_viridis_menus st) = menu_by_chain st /\
  menu_mol_color (add_viridis_menus st) = menu_mol_color st /\
  menu_color_auto (add_viridis_menus st) = menu_color_auto st /\
  _original_by_chain (add_viridis_menus st) = _original_by_chain st /\
  _original_mol_color (add_viridis_menus st) = _original_mol_color st /\
  _original_color_auto (add_viridis_menus st) = _original_color_auto st /\
  menu_has_viridis_menus (add_viridis_menus st) = menu_has_viridis_menus st.
Proof.
  intros Hacl Hflag.
  destruct (add_viridis_menus_fields st)
    as (A1 & A2 & A3 & A4 & A5 & A6 & A7 & A8 & A9 & _).
  cbv zeta in *.
  rewrite A1, A2, A3, A4, A5, A6, A7, A8, A9, Hflag, Hacl.
  repeat split; try reflexivity.
  by destruct (_original_spectrum st).
Qed.

(** X9: [remove_viridis_menus] on a host where nothing is installed
    changes nothing but the output, to which it adds its first line and
    the line saying that the menus are not present. *)
Theorem remove_viridis_menus_when_absent (st : state) :
  unpatched st ->
  remove_viridis_menus st
  = print Msg.not_present (print Msg.default_rainbow st).
Proof.
  intros (Hos & _ & _ & _ & Hflag).
  destruct st as [os obc omc oca cs bc mc ca fl acl reg out].
  simpl in Hos. subst os.
  unfold menus_flag in Hflag. simpl in Hflag.
  by destruct fl as [[]|].
Qed.

Lemma remove_viridis_menus_all_colors_list (st : state) :
  menu_all_colors_list (remove_viridis_menus st) = menu_all_colors_list st.
Proof.
  destruct st as [os obc omc oca cs bc mc ca fl acl reg out].
  destruct os, fl as [[]|], acl, obc, omc, oca; reflexivity.
Qed.

(** X10: a second [remove_viridis_menus] in a row changes no slot, no
    capture and not the flag. *)
Theorem remove_viridis_menus_twice (st : state) :
  slots (remove_viridis_menus (remove_viridis_menus st))
  = slots (remove_viridis_menus st) /\
  originals (remove_viridis_menus (remove_viridis_menus st))
  = originals (remove_viridis_menus st) /\
  menu_has_viridis_menus (remove_viridis_menus (remove_viridis_menus st))
  = menu_has_viridis_menus (remove_viridis_menus st).
Proof.
  pose proof (remove_viridis_menus_fields st) as Hone.
  pose proof (remove_viridis_menus_fields (remove_viridis_menus st)) as Htwo.
  cbv zeta in Hone, Htwo.
  destruct Hone as (A1 & A2 & A3 & A4 & A5 & A6 & A7 & A8 & A9).
  destruct Htwo as (B1 & B2 & B3 & B4 & B5 & B6 & B7 & B8 & B9).
  unfold slots, originals, menus_flag in *.
  rewrite B1, B2, B3, B4, B5, B6, B7, B8, B9.
  rewrite remove_viridis_menus_all_colors_list.
  rewrite ?A1, ?A2, ?A3, ?A4, ?A5, ?A6, ?A7, ?A8, ?A9.
  clear.
  destruct (menu_has_viridis_menus st) as [[]|],
    (menu_all_colors_list st), (_original_spectrum st),
    (_original_by_chain st), (_original_mol_color st),
    (_original_color_auto st); repeat split; reflexivity.
Qed.

(** X11: [unpatch_spectrum] undoes [patch_spectrum]: on a host whose
    [spectrum] is not captured, patching and unpatching gives back the
    very same state. *)
Theorem unpatch_patch_spectrum (st : state) :
  _original_spectrum st = None ->
  unpatch_spectrum (patch_spectrum st) = st.
Proof.
  destruct st as [os obc omc oca cs bc mc ca fl acl reg out].
  simpl. by intros ->.
Qed.
End LifecycleMore.

(** ** More on the wrapped command *)

Section SpectrumMore.
Context {I : Imports}.

Lemma unpatch_spectrum_original (st : state) :
  _original_spectrum (unpatch_spectrum st) = None.
Proof.
  unfold unpatch_spectrum.
  by destruct (_original_spectrum st) eqn:Horig.
Qed.

Lemma call_wrapper_uncaptured (fuel : nat) (st : state)
    (args : list value) (kwargs : gmap string value) :
  _original_spectrum st = None ->
  call_spectrum (S fuel) st SpectrumWrapper args kwargs = Raise TypeError.
Proof. intros Hnone. simpl. by rewrite Hnone. Qed.

(** X12: a wrapper kept from before is not harmless once [spectrum] is
    unpatched: after [unpatch_spectrum] or [remove_viridis_menus], calling
    it calls [None] and raises [TypeError], whatever the arguments. *)
Theorem stale_spectrum_wrapper_raises (fuel : nat) (st : state)
    (args : list value) (kwargs : gmap string value) :
  call_spectrum (S fuel) (unpatch_spectrum st) SpectrumWrapper args kwargs
  = Raise TypeError /\
  call_spectrum (S fuel) (remove_viridis_menus st) SpectrumWrapper args kwargs
  = Raise TypeError.
Proof.
  split; apply call_wrapper_uncaptured.
  - apply unpatch_spectrum_original.
  - by destruct (remove_viridis_menus_fields st) as (_ & Horig & _).
Qed.

(** X13: after activation, [viridis] with no positional argument reaches
    PyMOL's [spectrum] with [palette='viridis'], replacing a palette
    keyword of the caller, and the wrapper adds no [turbo]; with two or
    more positional arguments the second one is replaced by ['viridis']
    and the keywords go through as they are. *)
Theorem viridis_after_activation (st : state) (h fuel : nat)
    (a b : value) (rest : list value) (kwargs : gmap string value) :
  unpatched st ->
  cmd_spectrum st = HostSpectrum h ->
  let st' := add_viridis_menus st in
  viridis (S (S fuel)) st' [] kwargs
  = Ok (HostCall h [] (<["palette" := VStr "viridis"]> kwargs)) /\
  viridis (S (S fuel)) st' (a :: b :: rest) kwargs
  = Ok (HostCall h (a :: VStr "viridis" :: rest) kwargs).
Proof.
  intros (Hos & _ & _ & _ & Hflag) Hslot st'.
  destruct (add_viridis_menus_fields st) as (Hcmd & Horig & _).
  fold st' in Hcmd, Horig.
  rewrite Hflag in Hcmd, Horig. rewrite Hos, Hslot in Horig.
  rewrite viridis_no_positional, viridis_two_positional.
  rewrite Hcmd, !(call_wrapper _ _ h) by done.
  split.
  - rewrite (bool_decide_true (is_Some _))
      by (rewrite lookup_insert_eq; by eexists).
    by rewrite andb_false_r.
  - by rewrite bool_decide_false by (simpl; lia).
Qed.
End SpectrumMore.

(** ** Any sequence of calls *)

Lemma held_capture {A} `{EqDecision A} (f0 w : A) (stored : option A)
    (slot : A) (b : bool) :
  held f0 w stored slot = true ->
  held f0 w
    (if b then match stored with Some orig => Some orig | None => Some slot end
     else stored)
    (if b then w else slot) = true.
Proof.
  destruct b; [| done]. unfold held.
  destruct stored as [orig|].
  - intros [Horig _]%andb_true_iff. rewrite Horig.
    by rewrite bool_decide_true.
  - intros Hslot. rewrite Hslot. by rewrite bool_decide_true.
Qed.

Lemma held_restore {A} `{EqDecision A} (f0 w : A) (stored : option A)
    (slot : A) (b : bool) :
  held f0 w stored slot = true ->
  held f0 w (if b then None else stored)
    (if b then match stored with Some orig => orig | None => slot end
     else slot) = true.
Proof.
  destruct b; [| done]. unfold held.
  destruct stored as [orig|]; [| done].
  by intros [Horig _]%andb_true_iff.
Qed.

Lemma held_function {A} `{EqDecision A} (f0 w : A) (stored : option A)
    (slot : A) :
  held f0 w stored slot = true ->
  match stored with Some orig => orig | None => slot end = f0.
Proof.
  unfold held. destruct stored as [orig|].
  - intros [Horig _]%andb_true_iff. by apply bool_decide_eq_true in Horig.
  - intros Hslot. by apply bool_decide_eq_true in Hslot.
Qed.

Section AnyCalls.
Context {I : Imports}.

Lemma anchored_start (st0 : state) : pristine st0 -> anchored st0 st0.
Proof.
  intros ((Hos & Hobc & Homc & Hoca & Hflag) & _).
  unfold anchored. rewrite Hos, Hobc, Homc, Hoca, Hflag. unfold held.
  rewrite !bool_decide_true by done.
  repeat split; done.
Qed.

Lemma anchored_add (st0 st : state) :
  anchored st0 st -> anchored st0 (add_viridis_menus st).
Proof.
  intros (H1 & H2 & H3 & H4 & H5 & H6 & H7).
  destruct (add_viridis_menus_fields st)
    as (A1 & A2 & A3 & A4 & A5 & A6 & A7 & A8 & A9 & A10).
  cbv zeta in *. unfold anchored, menus_flag in *.
  rewrite A1, A2, A3, A4, A5, A6, A7, A8, A9, A10.
  clear A1 A2 A3 A4 A5 A6 A7 A8 A9 A10.
  split; [| split; [| split; [| split; [| split; [done |]]]]].
  - destruct (menu_has_viridis_menus st) as [[]|]; [done | |];
      apply (held_capture _ _ _ _ true H1).
  - by apply held_capture.
  - by apply held_capture.
  - by apply held_capture.
  - clear H1 H2 H3 H4 H5.
    destruct (menu_has_viridis_menus st) as [[]|],
      (menu_all_colors_list st), (_original_by_chain st),
      (_original_mol_color st), (_original_color_auto st);
      simpl in *; split; intros Hnew; try discriminate Hnew;
      first [by apply H6 | by apply H7 | by repeat split; eexists].
Qed.

Lemma anchored_remove (st0 st : state) :
  anchored st0 st -> anchored st0 (remove_viridis_menus st).
Proof.
  intros (H1 & H2 & H3 & H4 & H5 & H6 & H7).
  destruct (remove_viridis_menus_fields st)
    as (A1 & A2 & A3 & A4 & A5 & A6 & A7 & A8 & A9).
  cbv zeta in *. unfold anchored, menus_flag in *.
  rewrite remove_viridis_menus_all_colors_list.
  rewrite A1, A2, A3, A4, A5, A6, A7, A8, A9.
  clear A1 A2 A3 A4 A5 A6 A7 A8 A9.
  split; [| split; [| split; [| split; [| split; [done |]]]]].
  - apply (held_restore _ _ _ _ true H1).
  - by apply held_restore.
  - by apply held_restore.
  - by apply held_restore.
  - clear H1 H2 H3 H4 H5.
    destruct (menu_has_viridis_menus st) as [[]|].
    + destruct (H6 eq_refl) as (Hacl & _). rewrite Hacl. simpl.
      split; [done | by intros _].
    + simpl. split; [done | by intros _; apply H7].
    + simpl. split; [done | by intros _; apply H7].
Qed.

Lemma anchored_patch (st0 st : state) :
  anchored st0 st -> anchored st0 (patch_spectrum st).
Proof.
  intros (H1 & H2 & H3 & H4 & H5 & H6 & H7).
  pose proof (held_capture _ _ _ _ true H1) as H1'. simpl in H1'.
  destruct st as [os obc omc oca cs bc mc ca fl acl reg out].
  unfold anchored in *.
  destruct os; simpl in *; repeat split; first [done | by apply H6 | by apply H7].
Qed.

Lemma anchored_unpatch (st0 st : state) :
  anchored st0 st -> anchored st0 (unpatch_spectrum st).
Proof.
  intros (H1 & H2 & H3 & H4 & H5 & H6 & H7).
  pose proof (held_restore _ _ _ _ true H1) as H1'. simpl in H1'.
  destruct st as [os obc omc oca cs bc mc ca fl acl reg out].
  unfold anchored in *.
  destruct os; simpl in *; repeat split; first [done | by apply H6 | by apply H7].
Qed.

Lemma anchored_run_calls (st0 : state) (calls : list api_call) (st : state) :
  anchored st0 st -> anchored st0 (run_calls calls st).
Proof.
  revert st.
  induction calls as [|c calls IH]; intros st Hst; [done |].
  apply IH. destruct c; simpl.
  - by apply anchored_add.
  - by apply anchored_remove.
  - by apply anchored_patch.
  - by apply anchored_unpatch.
  - exact Hst.
Qed.
End AnyCalls.

Section AnyCallsResults.
Context {I : Imports}.

(** How the two appending wrappers extend a menu. *)
Lemma by_chain_patch_appends (fuel : nat) (st : state) (orig : menu_fn)
    (c : self_cmd) (sele : string) (base : list value) :
  _original_by_chain st = Some orig ->
  call_menu fuel st orig c sele = Ok base ->
  exists extra,
    call_menu (S fuel) st ByChainPatch c sele = Ok (base ++ extra) /\
    length extra = 10 /\
    Forall (fun e => is_triple e = true) extra.
Proof.
  intros Horig Hcall. simpl. unfold _by_chain_patch.
  rewrite !colorize_text_closed_form, Horig.
  unfold mbind, result_bind. rewrite Hcall.
  eexists. split; [reflexivity |]. split; [reflexivity |].
  repeat constructor.
Qed.

Lemma color_auto_patch_appends (fuel : nat) (st : state) (orig : menu_fn)
    (c : self_cmd) (sele : string) (base : list value) :
  _original_color_auto st = Some orig ->
  call_menu fuel st orig c sele = Ok base ->
  exists extra,
    call_menu (S fuel) st ColorAutoPatch c sele = Ok (base ++ extra) /\
    length extra = 3 /\
    Forall (fun e => is_triple e = true) extra.
Proof.
  intros Horig Hcall. simpl. unfold _color_auto_patch.
  rewrite !colorize_text_closed_form, Horig.
  unfold mbind, result_bind. rewrite Hcall.
  eexists. split; [reflexivity |]. split; [reflexivity |].
  repeat constructor.
Qed.

(** X14: on a host whose slots held PyMOL's own functions, after any
    sequence of calls of the module's functions a call of [cmd.spectrum]
    reaches PyMOL's original [spectrum] with the caller's positional
    arguments and the caller's keywords, to which at most
    [palette='turbo'] is added: it never calls [None] and never runs into
    itself. *)
Theorem spectrum_reaches_host_after_any_calls (st0 : state)
    (calls : list api_call) (h fuel : nat) (args : list value)
    (kwargs : gmap string value) :
  pristine st0 ->
  cmd_spectrum st0 = HostSpectrum h ->
  let st := run_calls calls st0 in
  exists kw,
    call_spectrum (S (S fuel)) st (cmd_spectrum st) args kwargs
    = Ok (HostCall h args kw) /\
    (kw = kwargs \/ kw = <["palette" := VStr "turbo"]> kwargs).
Proof.
  intros Hpristine Hslot st.
  destruct (anchored_run_calls st0 calls st0 (anchored_start st0 Hpristine))
    as (Hheld & _).
  fold st in Hheld. rewrite Hslot in Hheld. unfold held in Hheld.
  destruct (_original_spectrum st) as [orig|] eqn:Horig.
  - apply andb_true_iff in Hheld as [Hf Hw].
    apply bool_decide_eq_true in Hf, Hw. subst orig. rewrite Hw.
    rewrite (call_wrapper _ _ h) by done.
    eexists. split; [reflexivity |].
    destruct (_ && _); [by right | by left].
  - apply bool_decide_eq_true in Hheld. rewrite Hheld.
    exists kwargs. split; [reflexivity | by left].
Qed.

(** X15: on such a host, after any sequence of calls of the module's
    functions one [remove_viridis_menus] puts PyMOL's own functions back
    into the four slots, leaves no capture and leaves the flag false. *)
Theorem remove_restores_after_any_calls (st0 : state)
    (calls : list api_call) :
  pristine st0 ->
  let st := remove_viridis_menus (run_calls calls st0) in
  slots st = slots st0 /\
  originals st = (None, None, None, None) /\
  menus_flag st = false.
Proof.
  intros Hpristine.
  destruct (anchored_run_calls st0 calls st0 (anchored_start st0 Hpristine))
    as (H1 & H2 & H3 & H4 & _ & H6 & H7).
  destruct (remove_viridis_menus_fields (run_calls calls st0))
    as (A1 & A2 & A3 & A4 & A5 & A6 & A7 & A8 & A9).
  cbv zeta in *. unfold slots, originals, menus_flag in *.
  rewrite A1, A2, A3, A4, A5, A6, A7, A8, A9.
  clear A1 A2 A3 A4 A5 A6 A7 A8 A9.
  apply held_function in H1, H2, H3, H4.
  destruct (menu_has_viridis_menus (run_calls calls st0)) as [[]|].
  - destruct (H6 eq_refl) as (Hacl & _). rewrite Hacl. simpl.
    by rewrite H1, H2, H3, H4.
  - destruct (H7 eq_refl) as (Hobc & Homc & Hoca).
    rewrite Hobc in H2. rewrite Homc in H3. rewrite Hoca in H4.
    simpl. by rewrite H1, H2, H3, H4, Hobc, Homc, Hoca.
  - destruct (H7 eq_refl) as (Hobc & Homc & Hoca).
    rewrite Hobc in H2. rewrite Homc in H3. rewrite Hoca in H4.
    simpl. by rewrite H1, H2, H3, H4, Hobc, Homc, Hoca.
Qed.

(** X16: on such a host, after any sequence of calls of the module's
    functions the builders in the slots [menu.by_chain] and
    [menu.color_auto] return, and what they return starts with the
    entries of PyMOL's own builder. *)
Theorem chain_menus_return_after_any_calls (st0 : state)
    (calls : list api_call) (h1 h3 fuel : nat) (c : self_cmd)
    (sele : string) :
  pristine st0 ->
  menu_by_chain st0 = HostMenu h1 ->
  menu_color_auto st0 = HostMenu h3 ->
  let st := run_calls calls st0 in
  (exists extra,
     call_menu (S (S fuel)) st (menu_by_chain st) c sele
     = Ok (host_menu h1 c sele ++ extra)) /\
  (exists extra,
     call_menu (S (S fuel)) st (menu_color_auto st) c sele
     = Ok (host_menu h3 c sele ++ extra)).
Proof.
  intros Hpristine Hchain Hauto st.
  destruct (anchored_run_calls st0 calls st0 (anchored_start st0 Hpristine))
    as (_ & H2 & _ & H4 & _).
  fold st in H2, H4. rewrite Hchain in H2. rewrite Hauto in H4.
  unfold held in H2, H4. split.
  - destruct (_original_by_chain st) as [orig|] eqn:Horig.
    + apply andb_true_iff in H2 as [Hf Hw].
      apply bool_decide_eq_true in Hf, Hw. subst orig. rewrite Hw.
      destruct (by_chain_patch_appends (S fuel) st (HostMenu h1) c sele
                  (host_menu h1 c sele) Horig eq_refl) as (extra & Hcall & _).
      by exists extra.
    + apply bool_decide_eq_true in H2. rewrite H2.
      exists []. by rewrite app_nil_r.
  - destruct (_original_color_auto st) as [orig|] eqn:Horig.
    + apply andb_true_iff in H4 as [Hf Hw].
      apply bool_decide_eq_true in Hf, Hw. subst orig. rewrite Hw.
      destruct (color_auto_patch_appends (S fuel) st (HostMenu h3) c sele
                  (host_menu h3 c sele) Horig eq_refl) as (extra & Hcall & _).
      by exists extra.
    + apply bool_decide_eq_true in H4. rewrite H4.
      exists []. by rewrite app_nil_r.
Qed.
End AnyCallsResults.

(** ** More on the patched menu builders *)

Lemma py_insert_split {A} (i : Z) (x : A) (l : list A) :
  exists k, k <= length l /\ py_insert i x l = take k l ++ x :: drop k l.
Proof.
  unfold py_insert. cbv zeta.
  eexists. split; [| reflexivity].
  repeat case_match; lia.
Qed.

Lemma py_insert_before_last {A} (x z : A) (l : list A) :
  py_insert (-1) x (l ++ [z]) = l ++ [x; z].
Proof.
  unfold py_insert. cbv zeta. rewrite length_app. simpl.
  replace (-1 + Z.of_nat (length l + 1))%Z with (Z.of_nat (length l)) by lia.
  assert (Hlow : (Z.of_nat (length l) <? 0)%Z = false)
    by (apply Z.ltb_ge; lia).
  assert (Hhigh : (Z.of_nat (length l + 1) <? Z.of_nat (length l))%Z = false)
    by (apply Z.ltb_ge; lia).
  rewrite Hlow, Hhigh, Nat2Z.id.
  by rewrite take_app_length, drop_app_length.
Qed.

Lemma find_auto_malformed (i : nat) (pre : list value) (bad : value)
    (rest : list value) (err : pyerr) :
  Forall (fun e => is_triple e = true /\ labelled_auto e = false) pre ->
  unpack3 bad = Raise err ->
  find_auto i (pre ++ bad :: rest) = Raise err.
Proof.
  intros Hpre Hbad. revert i.
  induction Hpre as [|e pre [Htriple Hlabel] _ IH]; intros i.
  - simpl. by rewrite Hbad.
  - simpl. unfold is_triple, labelled_auto, label_of in Htriple, Hlabel.
    destruct (unpack3 e) as [[[x text] y]|err']; [| done].
    simpl. by rewrite Hlabel, IH.
Qed.

Section MenusMore.
Context {I : Imports}.

(** X17: with a captured original that returns, the patched [by_chain]
    builder returns the original's entries followed by 10 entries of its
    own, the patched [color_auto] builder the original's entries followed
    by 3; the added entries are all three-item entries. *)
Theorem chain_patches_append (fuel : nat) (st : state)
    (orig_chain orig_auto : menu_fn) (c : self_cmd) (sele : string)
    (base_chain base_auto : list value) :
  _original_by_chain st = Some orig_chain ->
  call_menu fuel st orig_chain c sele = Ok base_chain ->
  _original_color_auto st = Some orig_auto ->
  call_menu fuel st orig_auto c sele = Ok base_auto ->
  (exists extra,
     call_menu (S fuel) st ByChainPatch c sele = Ok (base_chain ++ extra) /\
     length extra = 10 /\
     Forall (fun e => is_triple e = true) extra) /\
  (exists extra,
     call_menu (S fuel) st ColorAutoPatch c sele = Ok (base_auto ++ extra) /\
     length extra = 3 /\
     Forall (fun e => is_triple e = true) extra).
Proof.
  intros Hchain Hcall_chain Hauto Hcall_auto. split.
  - by apply (by_chain_patch_appends fuel st orig_chain).
  - by apply (color_auto_patch_appends fuel st orig_auto).
Qed.

(** X18: when [auto] is the first entry of the original menu, the index
    [auto_menu_idx - 1] is [-1] and [list.insert] counts it from the end:
    the viridis entry lands before the last entry of the menu, after
    [auto] when the menu has other entries. *)
Theorem mol_color_patch_auto_first_lands_before_last (fuel : nat)
    (st : state) (orig : menu_fn) (c : self_cmd) (sele : string)
    (a : value) (mid : list value) (z : value) :
  _original_mol_color st = Some orig ->
  call_menu fuel st orig c sele = Ok (a :: mid ++ [z]) ->
  labelled_auto a = true ->
  exists new,
    viridis_entry c sele = Ok new /\
    call_menu (S fuel) st MolColorPatch c sele
    = Ok (a :: mid ++ [new; z]).
Proof.
  intros Horig Hcall Ha.
  destruct (viridis_entry_ok c sele) as [new Hnew].
  exists new. split; [done |].
  pose proof (find_auto_found 0 [] a (mid ++ [z]) (Forall_nil_2 _) Ha)
    as Hfind.
  simpl in Hfind.
  rewrite (mol_color_patch_found fuel st orig c sele _ _ new
             Horig Hcall Hfind Hnew).
  f_equal. exact (py_insert_before_last new z (a :: mid)).
Qed.

(** X19: an entry in front of [auto] that does not unpack into three
    items makes the patched molecule-colour builder raise the exception
    of the unpacking ([ValueError] for a list of another length,
    [TypeError] for a value that is not iterable). *)
Theorem mol_color_patch_malformed_entry_raises (fuel : nat) (st : state)
    (orig : menu_fn) (c : self_cmd) (sele : string) (pre : list value)
    (bad : value) (rest : list value) (err : pyerr) :
  _original_mol_color st = Some orig ->
  call_menu fuel st orig c sele = Ok (pre ++ bad :: rest) ->
  Forall (fun e => is_triple e = true /\ labelled_auto e = false) pre ->
  unpack3 bad = Raise err ->
  call_menu (S fuel) st MolColorPatch c sele = Raise err.
Proof.
  intros Horig Hcall Hpre Hbad.
  simpl. unfold _mol_color_patch.
  rewrite colorize_text_closed_form, Horig.
  unfold mbind, result_bind. rewrite Hcall.
  by rewrite (find_auto_malformed 0 pre bad rest err Hpre Hbad).
Qed.

(** X20: wherever the first [auto] entry is, the patched molecule-colour
    builder adds exactly one entry and keeps every original entry, in
    order: its result is the original menu cut in two with the viridis
    entry between the parts. *)
Theorem mol_color_patch_keeps_entries (fuel : nat) (st : state)
    (orig : menu_fn) (c : self_cmd) (sele : string) (pre : list value)
    (a : value) (post : list value) :
  _original_mol_color st = Some orig ->
  call_menu fuel st orig c sele = Ok (pre ++ a :: post) ->
  Forall (fun e => is_triple e = true /\ labelled_auto e = false) pre ->
  labelled_auto a = true ->
  exists new k,
    viridis_entry c sele = Ok new /\
    k <= length (pre ++ a :: post) /\
    call_menu (S fuel) st MolColorPatch c sele
    = Ok (take k (pre ++ a :: post) ++ new :: drop k (pre ++ a :: post)).
Proof.
  intros Horig Hcall Hpre Ha.
  destruct (viridis_entry_ok c sele) as [new Hnew].
  pose proof (find_auto_found 0 pre a post Hpre Ha) as Hfind.
  destruct (py_insert_split (Z.of_nat (0 + length pre) - 1) new
              (pre ++ a :: post)) as (k & Hk & Hinsert).
  exists new, k. split; [done |]. split; [done |].
  rewrite (mol_color_patch_found fuel st orig c sele _ _ new
             Horig Hcall Hfind Hnew).
  by rewrite Hinsert.
Qed.
End MenusMore.

(** * The further statements on concrete hosts *)

Lemma colorize_stops_at_paren_witness :
  has_paren "by obj" = false /\
  String.length "by obj" <= length _viridis8_rgb /\
  exists body,
    _colorize_text "by obj" _viridis8_rgb = Ok (body +:+ reset_marker) /\
    _colorize_text "by obj(elem C)" _viridis8_rgb
    = Ok (body +:+ bslash +:+ "888(" +:+ "elem C)" +:+ reset_marker).
Proof.
  assert (Hparen : has_paren "by obj" = false) by reflexivity.
  assert (Hlen : String.length "by obj" <= length _viridis8_rgb)
    by (simpl; lia).
  split; [exact Hparen |]. split; [exact Hlen |].
  exact (colorize_stops_at_paren "by obj" "elem C)" _viridis8_rgb
           Hparen Hlen).
Defined.

Lemma colorize_leaves_tail_witness :
  length _viridis8_rgb < String.length "chainbows" /\
  exists body,
    _colorize_text "chainbows" _viridis8_rgb = Ok (body +:+ reset_marker) /\
    _colorize_text "chainbows by segment" _viridis8_rgb
    = Ok (body +:+ " by segment" +:+ reset_marker).
Proof.
  assert (Hlen : length _viridis8_rgb < String.length "chainbows")
    by (simpl; lia).
  split; [exact Hlen |].
  exact (colorize_leaves_tail "chainbows" " by segment" _viridis8_rgb Hlen).
Defined.

Lemma add_palettes_names_witness :
  ("turbo" ∈ (NEW_PALETTES (Imports := Demo.imports)).*1) /\
  is_Some (palette_colors_dict
             (add_palettes (I := Demo.imports) Demo.host) !! "turbo").
Proof.
  assert (Hin : "turbo" ∈ (NEW_PALETTES (Imports := Demo.imports)).*1)
    by (simpl; right; left).
  split; [exact Hin |].
  apply (add_palettes_names (I := Demo.imports) Demo.host "turbo").
  right. exact Hin.
Defined.

Lemma add_viridis_menus_palettes_witness :
  menus_flag Demo.host = false /\
  _has_viridis_palettes (I := Demo.imports)
    (add_viridis_menus (I := Demo.imports) Demo.host) = true.
Proof.
  split; [reflexivity |].
  exact (proj2 (add_viridis_menus_palettes (I := Demo.imports) Demo.host)
           eq_refl).
Defined.

Lemma add_viridis_menus_twice_witness :
  menu_all_colors_list Demo.host = true /\
  add_viridis_menus (I := Demo.imports)
    (add_viridis_menus (I := Demo.imports) Demo.host)
  = print Msg.already_added
      (add_viridis_menus (I := Demo.imports) Demo.host).
Proof.
  split; [reflexivity |].
  exact (add_viridis_menus_twice (I := Demo.imports) Demo.host eq_refl).
Defined.

Lemma add_viridis_menus_old_pymol_witness :
  menu_all_colors_list DemoMore.old_host = false /\
  menus_flag DemoMore.old_host = false /\
  let st := add_viridis_menus (I := Demo.imports) DemoMore.old_host in
  cmd_spectrum st = SpectrumWrapper /\
  menu_by_chain st = HostMenu 1 /\
  menu_has_viridis_menus st = None.
Proof.
  split; [reflexivity |]. split; [reflexivity |].
  destruct (add_viridis_menus_old_pymol (I := Demo.imports)
              DemoMore.old_host eq_refl eq_refl)
    as (Hcmd & _ & Hchain & _ & _ & _ & _ & _ & Hflag).
  intros st. split; [exact Hcmd |]. split; [exact Hchain | exact Hflag].
Defined.

Lemma remove_viridis_menus_when_absent_witness :
  unpatched Demo.host /\
  remove_viridis_menus Demo.host
  = print Msg.not_present (print Msg.default_rainbow Demo.host).
Proof.
  assert (Hun : unpatched Demo.host) by (repeat split).
  split; [exact Hun |].
  exact (remove_viridis_menus_when_absent Demo.host Hun).
Defined.

Lemma unpatch_patch_spectrum_witness :
  _original_spectrum Demo.host = None /\
  unpatch_spectrum (patch_spectrum Demo.host) = Demo.host.
Proof.
  split; [reflexivity |].
  exact (unpatch_patch_spectrum Demo.host eq_refl).
Defined.

Lemma viridis_after_activation_witness :
  unpatched Demo.host /\
  cmd_spectrum Demo.host = HostSpectrum 0 /\
  let st' := add_viridis_menus (I := Demo.imports) Demo.host in
  viridis 2 st' [] {["palette" := VStr "magma"]}
  = Ok (HostCall 0 []
          (<["palette" := VStr "viridis"]> {["palette" := VStr "magma"]})) /\
  viridis 2 st' [VStr "b"; VStr "rainbow"; VStr "chain A"] ∅
  = Ok (HostCall 0 [VStr "b"; VStr "viridis"; VStr "chain A"] ∅).
Proof.
  assert (Hun : unpatched Demo.host) by (repeat split).
  split; [exact Hun |]. split; [reflexivity |].
  intros st'. split.
  - exact (proj1 (viridis_after_activation (I := Demo.imports) Demo.host 0 0
                    VNone VNone [] {["palette" := VStr "magma"]}
                    Hun eq_refl)).
  - exact (proj2 (viridis_after_activation (I := Demo.imports) Demo.host 0 0
                    (VStr "b") (VStr "rainbow") [VStr "chain A"] ∅
                    Hun eq_refl)).
Defined.

Lemma spectrum_reaches_host_after_any_calls_witness :
  pristine Demo.host /\
  cmd_spectrum Demo.host = HostSpectrum 0 /\
  let st := run_calls (I := Demo.imports) DemoMore.session Demo.host in
  exists kw,
    call_spectrum 2 st (cmd_spectrum st) [VStr "count"] ∅
    = Ok (HostCall 0 [VStr "count"] kw) /\
    (kw = ∅ \/ kw = <["palette" := VStr "turbo"]> ∅).
Proof.
  assert (Hpristine : pristine Demo.host) by (repeat split).
  split; [exact Hpristine |]. split; [reflexivity |].
  exact (spectrum_reaches_host_after_any_calls (I := Demo.imports)
           Demo.host DemoMore.session 0 0 [VStr "count"] ∅
           Hpristine eq_refl).
Defined.

Lemma remove_restores_after_any_calls_witness :
  pristine Demo.host /\
  let st :=
    remove_viridis_menus
      (run_calls (I := Demo.imports) DemoMore.session Demo.host) in
  slots st = slots Demo.host /\
  originals st = (None, None, None, None) /\
  menus_flag st = false.
Proof.
  assert (Hpristine : pristine Demo.host) by (repeat split).
  split; [exact Hpristine |].
  exact (remove_restores_after_any_calls (I := Demo.imports)
           Demo.host DemoMore.session Hpristine).
Defined.

Lemma chain_menus_return_after_any_calls_witness :
  pristine Demo.host /\
  menu_by_chain Demo.host = HostMenu 1 /\
  menu_color_auto Demo.host = HostMenu 3 /\
  let st := run_calls (I := Demo.imports) DemoMore.session Demo.host in
  (exists extra,
     call_menu (I := Demo.imports) 2 st (menu_by_chain st) tt "all"
     = Ok (Demo.menus 1 tt "all" ++ extra)) /\
  (exists extra,
     call_menu (I := Demo.imports) 2 st (menu_color_auto st) tt "all"
     = Ok (Demo.menus 3 tt "all" ++ extra)).
Proof.
  assert (Hpristine : pristine Demo.host) by (repeat split).
  split; [exact Hpristine |]. split; [reflexivity |].
  split; [reflexivity |].
  exact (chain_menus_return_after_any_calls (I := Demo.imports)
           Demo.host DemoMore.session 1 3 0 tt "all"
           Hpristine eq_refl eq_refl).
Defined.

Lemma chain_patches_append_witness :
  let st := add_viridis_menus (I := Demo.imports) Demo.host in
  _original_by_chain st = Some (HostMenu 1) /\
  _original_color_auto st = Some (HostMenu 3) /\
  (exists extra,
     call_menu (I := Demo.imports) 2 st ByChainPatch tt "all"
     = Ok (Demo.menus 1 tt "all" ++ extra) /\
     length extra = 10 /\
     Forall (fun e => is_triple e = true) extra) /\
  (exists extra,
     call_menu (I := Demo.imports) 2 st ColorAutoPatch tt "all"
     = Ok (Demo.menus 3 tt "all" ++ extra) /\
     length extra = 3 /\
     Forall (fun e => is_triple e = true) extra).
Proof.
  intros st.
  assert (Hchain : _original_by_chain st = Some (HostMenu 1))
    by (vm_compute; reflexivity).
  assert (Hauto : _original_color_auto st = Some (HostMenu 3))
    by (vm_compute; reflexivity).
  split; [exact Hchain |]. split; [exact Hauto |].
  exact (chain_patches_append (I := Demo.imports) 1 st
           (HostMenu 1) (HostMenu 3) tt "all"
           (Demo.menus 1 tt "all") (Demo.menus 3 tt "all")
           Hchain eq_refl Hauto eq_refl).
Defined.

Lemma mol_color_patch_auto_first_lands_before_last_witness :
  let st := Assign.original_mol_color (Some (HostMenu 5)) Demo.host in
  labelled_auto (entry 1 "auto" (VStr "auto")) = true /\
  exists new,
    viridis_entry (I := DemoMore.imports) tt "all" = Ok new /\
    call_menu (I := DemoMore.imports) 2 st MolColorPatch tt "all"
    = Ok (entry 1 "auto" (VStr "auto") :: [separator]
          ++ [new; entry 1 "ramp" (VStr "ramp")]).
Proof.
  intros st. split; [reflexivity |].
  exact (mol_color_patch_auto_first_lands_before_last
           (I := DemoMore.imports) 1 st (HostMenu 5) tt "all"
           (entry 1 "auto" (VStr "auto")) [separator]
           (entry 1 "ramp" (VStr "ramp")) eq_refl eq_refl eq_refl).
Defined.

Lemma mol_color_patch_malformed_entry_raises_witness :
  let st := Assign.original_mol_color (Some (HostMenu 6)) Demo.host in
  unpack3 (VList [VStr "Color:"]) = Raise ValueError /\
  call_menu (I := DemoMore.imports) 2 st MolColorPatch tt "all"
  = Raise ValueError.
Proof.
  intros st. split; [reflexivity |].
  exact (mol_color_patch_malformed_entry_raises (I := DemoMore.imports)
           1 st (HostMenu 6) tt "all" [] (VList [VStr "Color:"])
           [entry 1 "auto" (VStr "auto")] ValueError
           eq_refl eq_refl (Forall_nil_2 _) eq_refl).
Defined.

Lemma mol_color_patch_keeps_entries_witness :
  let st := Assign.original_mol_color (Some (HostMenu 2)) Demo.host in
  labelled_auto (entry 1 "auto" (VStr "auto")) = true /\
  exists new k,
    viridis_entry (I := Demo.imports) tt "all" = Ok new /\
    k <= length (Demo.menus 2 tt "all") /\
    call_menu (I := Demo.imports) 2 st MolColorPatch tt "all"
    = Ok (take k (Demo.menus 2 tt "all")
          ++ new :: drop k (Demo.menus 2 tt "all")).
Proof.
  intros st. split; [reflexivity |].
  apply (mol_color_patch_keeps_entries (I := Demo.imports)
           1 st (HostMenu 2) tt "all"
           [entry 2 "Color:" (VStr EmptyString);
            entry 1 "spectrum" (VStr "spectrum");
            separator]
           (entry 1 "auto" (VStr "auto")) [separator]).
  - reflexivity.
  - reflexivity.
  - repeat constructor.
  - reflexivity.
Defined.
